(** * DaabReports: the Navisworks viewpoint export flattener

    A shallow embedding of [DaabNavisExport/parseXml.py] (the refactored
    implementation) and of [1717 N FLAG/DB/ParseXml.py] (the legacy script),
    together with the properties of the flattening / deduplication walk.

    Layout:
    - Part 1: the Python runtime pieces the program calls (strings, [int],
      [datetime], the element tree and its serializer);
    - Part 2: the refactored program, function by function;
    - Part 3: the legacy script, and then the rest of the refactored
      program (the echoing log, input resolution, output, [main]);
    - Part 4: the vocabulary of the properties;
    - Part 5: lemmas and the properties of the walk. *)

From Stdlib Require Import String Ascii ZArith List Lia DecimalString DecimalNat.
From stdpp Require Import gmap strings list.

Local Open Scope string_scope.
Local Open Scope list_scope.
Set Warnings "-abstract-large-number".

(* ===================================================================== *)
(** * Part 1: the runtime                                                 *)
(* ===================================================================== *)

(** ** Strings

    Python [str] values are modelled as [string] (byte strings holding the
    UTF-8 encoding).  The program measures the length only of decimal
    renderings of integers, where bytes and code points coincide. *)

Definition quote_char : ascii := ascii_of_nat 34.
Definition apostrophe : ascii := ascii_of_nat 39.
Definition backslash : ascii := ascii_of_nat 92.

Fixpoint string_repeat (c : ascii) (n : nat) : string :=
  match n with
  | O => ""
  | S n' => String c (string_repeat c n')
  end.

(** [sep.join(parts)] *)
Fixpoint join (sep : string) (parts : list string) : string :=
  match parts with
  | [] => ""
  | [p] => p
  | p :: ps => p +:+ sep +:+ join sep ps
  end.

(** [str(n)] for a non-negative and for an arbitrary integer. *)
Definition str_nat (n : nat) : string := NilEmpty.string_of_uint (Nat.to_uint n).

Definition str_Z (z : Z) : string :=
  if (z <? 0)%Z then "-" +:+ str_nat (Z.to_nat (- z)) else str_nat (Z.to_nat z).

(** [s.zfill(width)]: pad with zeros on the left, after a leading sign. *)
Definition zfill (width : nat) (s : string) : string :=
  if (width <=? String.length s)%nat then s
  else
    let pad := string_repeat "0" (width - String.length s) in
    match s with
    | String c rest =>
        if (Ascii.eqb c "+" || Ascii.eqb c "-")%bool
        then String c (pad +:+ rest)
        else pad +:+ s
    | EmptyString => pad
    end.

(** [f"{x}"] for a value that is a string or [None]. *)
Definition fmt (x : option string) : string :=
  match x with
  | Some s => s
  | None => "None"
  end.

(** ** Exceptions

    Only the exceptions the date conversion can meet are modelled; each
    carries the text [str(e)] gives.  The wording of these texts belongs to
    the interpreter; the program only interpolates it. *)

Inductive exn : Type :=
  | ValueError (msg : string)
  | OverflowError (msg : string).

Definition str_exn (e : exn) : string :=
  match e with
  | ValueError msg => msg
  | OverflowError msg => msg
  end.

Definition result (A : Type) : Type := exn + A.

Definition ok {A : Type} (x : A) : result A := inr x.
Definition raise {A : Type} (e : exn) : result A := inl e.

Definition bind {A B : Type} (m : result A) (k : A -> result B) : result B :=
  match m with
  | inl e => inl e
  | inr x => k x
  end.

Notation "'let!' x ':=' m 'in' k" := (bind m (fun x => k))
  (at level 10, x name, m at level 100, k at level 200).

(** ** [repr] of a string, as it appears in the message of a failed [int] *)

Definition hex_digit (n : nat) : ascii :=
  if (n <? 10)%nat then ascii_of_nat (48 + n) else ascii_of_nat (87 + n).

Definition repr_char (q : ascii) (c : ascii) : string :=
  let n := nat_of_ascii c in
  if Ascii.eqb c backslash then String backslash (String backslash "")
  else if Ascii.eqb c q then String backslash (String q "")
  else if Ascii.eqb c (ascii_of_nat 10) then String backslash "n"
  else if Ascii.eqb c (ascii_of_nat 13) then String backslash "r"
  else if Ascii.eqb c (ascii_of_nat 9) then String backslash "t"
  else if ((n <? 32) || (n =? 127))%nat
       then String backslash
              (String "x" (String (hex_digit (n / 16)) (String (hex_digit (n mod 16)) "")))
  else String c "".

Fixpoint concat_map (f : ascii -> string) (s : string) : string :=
  match s with
  | EmptyString => ""
  | String c s' => f c +:+ concat_map f s'
  end.

Fixpoint string_mem (c : ascii) (s : string) : bool :=
  match s with
  | EmptyString => false
  | String d s' => (Ascii.eqb c d || string_mem c s')%bool
  end.

Definition py_repr (s : string) : string :=
  let q := if (string_mem apostrophe s && negb (string_mem quote_char s))%bool
           then quote_char else apostrophe in
  String q (concat_map (repr_char q) s +:+ String q "").

(** ** [int(s)] on a string (base 10, ASCII)

    Surrounding white space is stripped, one sign is allowed, and single
    underscores may separate digits.  Digits and blanks outside ASCII and
    the interpreter's optional limit on the number of digits are left out:
    attribute values are taken to be ASCII texts of ordinary length. *)

Definition is_space (c : ascii) : bool :=
  let n := nat_of_ascii c in
  ((9 <=? n) && (n <=? 13) || (28 <=? n) && (n <=? 32))%nat%bool.

Definition digit_val (c : ascii) : option Z :=
  let n := nat_of_ascii c in
  if ((48 <=? n) && (n <=? 57))%nat%bool then Some (Z.of_nat (n - 48)) else None.

Fixpoint lstrip (l : list ascii) : list ascii :=
  match l with
  | c :: l' => if is_space c then lstrip l' else l
  | [] => []
  end.

Definition strip (l : list ascii) : list ascii := rev (lstrip (rev (lstrip l))).

(** The digits after a first digit, [acc] being the value read so far. *)
Fixpoint int_digits (acc : Z) (l : list ascii) : option Z :=
  match l with
  | [] => Some acc
  | c :: l' =>
      if Ascii.eqb c "_" then
        match l' with
        | d :: l'' =>
            match digit_val d with
            | Some v => int_digits (10 * acc + v) l''
            | None => None
            end
        | [] => None
        end
      else
        match digit_val c with
        | Some v => int_digits (10 * acc + v) l'
        | None => None
        end
  end.

Definition int_unsigned (l : list ascii) : option Z :=
  match l with
  | c :: l' =>
      match digit_val c with
      | Some v => int_digits v l'
      | None => None
      end
  | [] => None
  end.

Definition int_literal (s : string) : option Z :=
  match strip (list_ascii_of_string s) with
  | c :: l =>
      if Ascii.eqb c "+" then int_unsigned l
      else if Ascii.eqb c "-" then Z.opp <$> int_unsigned l
      else int_unsigned (c :: l)
  | [] => None
  end.

Definition py_int (s : string) : result Z :=
  match int_literal s with
  | Some z => ok z
  | None => raise (ValueError ("invalid literal for int() with base 10: " +:+ py_repr s))
  end.

(** ** [datetime(year, month, day)] and [strftime("%Y/%m/%d")]

    The constructor checks, in this order, that the three arguments fit a C
    [int], then the year (1 to 9999), the month (1 to 12) and the day (1 to
    the length of the month).  The program formats only dates whose year is
    1900 or more, for which [%Y] gives four digits. *)

Record datetime : Type := mkDatetime { dt_year : Z; dt_month : Z; dt_day : Z }.

Definition is_leap (y : Z) : bool :=
  ((y mod 4 =? 0) && (negb (y mod 100 =? 0) || (y mod 400 =? 0)))%Z%bool.

Definition days_in_month (y m : Z) : Z :=
  (if (m =? 2) then (if is_leap y then 29 else 28)
   else if (m =? 4) || (m =? 6) || (m =? 9) || (m =? 11) then 30
   else 31)%Z.

Definition fits_c_int (z : Z) : bool := ((-2147483648 <=? z) && (z <=? 2147483647))%Z%bool.

Definition datetime_new (year month day : Z) : result datetime :=
  if negb (fits_c_int year && fits_c_int month && fits_c_int day)
  then raise (OverflowError "Python int too large to convert to C int")
  else if ((year <? 1) || (9999 <? year))%Z
  then raise (ValueError ("year " +:+ str_Z year +:+ " is out of range"))
  else if ((month <? 1) || (12 <? month))%Z
  then raise (ValueError "month must be in 1..12")
  else if ((day <? 1) || (days_in_month year month <? day))%Z
  then raise (ValueError "day is out of range for month")
  else ok (mkDatetime year month day).

Definition strftime_ymd (dt : datetime) : string :=
  zfill 4 (str_Z (dt_year dt)) +:+ "/" +:+
  zfill 2 (str_Z (dt_month dt)) +:+ "/" +:+
  zfill 2 (str_Z (dt_day dt)).

(** ** The element tree ([xml.etree.ElementTree.Element]) *)

#[warnings="-register-all"]
Inductive Element : Type :=
  mkElement {
    tag : string;
    attrib : list (string * string);
    text : option string;
    tail : option string;
    children : list Element
  }.

Section Element_induction.
Variable P : Element -> Prop.
Hypothesis IH : forall t a x l cs, Forall P cs -> P (mkElement t a x l cs).

Fixpoint Element_nested_ind (e : Element) : P e :=
  match e with
  | mkElement t a x l cs =>
      IH t a x l cs
        ((fix all (cs : list Element) : Forall P cs :=
            match cs with
            | [] => @List.Forall_nil Element P
            | c :: cs' =>
                @List.Forall_cons Element P c cs' (Element_nested_ind c) (all cs')
            end) cs)
  end.
End Element_induction.

(** [d.get(key)] on the attribute dictionary (kept in document order). *)
Fixpoint dict_get (key : string) (d : list (string * string)) : option string :=
  match d with
  | [] => None
  | (k, v) :: d' => if String.eqb k key then Some v else dict_get key d'
  end.

(** [e.attrib.get(key, default)] *)
Definition attrib_get (e : Element) (key : string) (default : string) : string :=
  match dict_get key (attrib e) with
  | Some v => v
  | None => default
  end.

Definition has_tag (name : string) (e : Element) : bool := String.eqb (tag e) name.

(** [e.findall(name)]: the direct children with that tag, in document order. *)
Definition findall (name : string) (e : Element) : list Element :=
  List.filter (has_tag name) (children e).

(** [e.find(name)]: the first direct child with that tag. *)
Definition find (name : string) (e : Element) : option Element :=
  List.find (has_tag name) (children e).

(** [e.findtext(name)]: the text of that child, [""] when it has none. *)
Definition findtext (name : string) (e : Element) : option string :=
  match find name e with
  | Some c => Some (match text c with Some t => t | None => "" end)
  | None => None
  end.

(** [ET.tostring(e, encoding="unicode")] for elements without namespaces. *)
Definition escape_cdata_char (c : ascii) : string :=
  if Ascii.eqb c "&" then "&amp;"
  else if Ascii.eqb c "<" then "&lt;"
  else if Ascii.eqb c ">" then "&gt;"
  else String c "".

Definition escape_attrib_char (c : ascii) : string :=
  if Ascii.eqb c "&" then "&amp;"
  else if Ascii.eqb c "<" then "&lt;"
  else if Ascii.eqb c ">" then "&gt;"
  else if Ascii.eqb c quote_char then "&quot;"
  else if Ascii.eqb c (ascii_of_nat 13) then "&#13;"
  else if Ascii.eqb c (ascii_of_nat 10) then "&#10;"
  else if Ascii.eqb c (ascii_of_nat 9) then "&#09;"
  else String c "".

Definition escape_cdata (s : option string) : string :=
  match s with
  | Some t => concat_map escape_cdata_char t
  | None => ""
  end.

Fixpoint serialize_attrib (d : list (string * string)) : string :=
  match d with
  | [] => ""
  | (k, v) :: d' =>
      " " +:+ k +:+ "=" +:+ String quote_char (concat_map escape_attrib_char v)
      +:+ String quote_char (serialize_attrib d')
  end.

Definition truthy (s : option string) : bool :=
  match s with
  | Some (String _ _) => true
  | _ => false
  end.

Fixpoint ET_tostring (e : Element) : string :=
  match e with
  | mkElement t a x l cs =>
      "<" +:+ t +:+ serialize_attrib a +:+
      (if (truthy x || negb (Nat.eqb (List.length cs) 0))%bool
       then ">" +:+ escape_cdata x +:+
            (fix all (cs : list Element) : string :=
               match cs with
               | [] => ""
               | c :: cs' => ET_tostring c +:+ all cs'
               end) cs +:+
            "</" +:+ t +:+ ">"
       else " />") +:+
      (if truthy l then escape_cdata l else "")
  end.

(** [Path(name).stem] for a bare file name: the name without its last
    suffix (a dot that is neither the first nor the last character). *)
Fixpoint rfind_dot (s : string) : option nat :=
  match s with
  | EmptyString => None
  | String c s' =>
      match rfind_dot s' with
      | Some i => Some (S i)
      | None => if Ascii.eqb c "." then Some O else None
      end
  end.

Definition path_stem (name : string) : string :=
  match rfind_dot name with
  | Some i =>
      if ((0 <? i) && (i <? String.length name - 1))%nat%bool
      then substring 0 i name
      else name
  | None => name
  end.

(* ===================================================================== *)
(** * Part 2: the refactored program, [DaabNavisExport/parseXml.py]       *)
(* ===================================================================== *)

(** ** Data

    A row is the 11-element list the program builds, kept as a record whose
    fields follow the column order of the CSV header (index 0 to 10). *)

Record Row : Type := mkRow {
  col_category : option string;      (* row[0] *)
  col_level : option string;         (* row[1] *)
  col_subfolder : option string;     (* row[2] *)
  col_view_name : option string;     (* row[3] *)
  col_guid : option string;          (* row[4] *)
  col_comment_id : option string;    (* row[5] *)
  col_status : option string;        (* row[6] *)
  col_user : option string;          (* row[7] *)
  col_body : option string;          (* row[8] *)
  col_created_date : option string;  (* row[9] *)
  col_image_path : option string     (* row[10] *)
}.

(** The identity key [(row[4], row[5])]. *)
Abbreviation Key := (option string * option string)%type.

(** The four objects [process_xml] creates and every call shares: the list
    [rows], the set [seen], the one-cell list [view_counter] and the list
    [debug_lines] behind the [log] closure. *)
Record State : Type := mkState {
  rows : list Row;
  seen : gset Key;
  view_counter : nat;
  debug_lines : list string
}.

(** [log(message)]: append to [debug_lines].  The optional echo to the
    console ([stream_debug]) changes none of the four objects. *)
Definition log (message : string) (st : State) : State :=
  mkState (rows st) (seen st) (view_counter st) (debug_lines st ++ [message]).

Definition CSV_FILE_NAME : string := "navisworks_views_comments.csv".
Definition CSV_FILE_STEM : string := path_stem CSV_FILE_NAME.
Definition IMAGE_FILE_PREFIX : string :=
  match CSV_FILE_STEM with
  | String _ _ => CSV_FILE_STEM +:+ "_vp"
  | EmptyString => "vp_"
  end.

(** ** [parse_createddate] *)

(** [int(date_node.attrib.get(key, 0))] *)
Definition int_attr (date_node : Element) (key : string) : result Z :=
  match dict_get key (attrib date_node) with
  | Some v => py_int v
  | None => ok 0%Z
  end.

(** The body of the [try] block. *)
Definition parse_createddate_try (created : option Element) : result (option string) :=
  let date_node :=
    match created with
    | Some c => find "date" c
    | None => None
    end in
  match date_node with
  | None => ok None
  | Some date_node =>
      let! year := int_attr date_node "year" in
      let! month := int_attr date_node "month" in
      let! day := int_attr date_node "day" in
      if ((year <? 1900) || (month =? 0) || (day =? 0))%Z
      then ok None
      else
        let! dt := datetime_new year month day in
        ok (Some (strftime_ymd dt))
  end.

Definition failure_line (e : exn) (created : option Element) : string :=
  "❌ Failed to parse createddate: " +:+ str_exn e +:+ ", raw=" +:+
  match created with
  | Some c => ET_tostring c
  | None => "None"
  end.

(** The whole function: the [try] block and its [except Exception]. *)
Definition parse_createddate (created : option Element) (st : State)
  : option string * State :=
  match parse_createddate_try created with
  | inr r => (r, st)
  | inl e => (None, log (failure_line e created) st)
  end.

(** ** [add_row] *)

Definition row_key (row : Row) : Key := (col_guid row, col_comment_id row).

Definition duplicate_line (row : Row) : string :=
  "⚠️ Duplicate skipped: GUID=" +:+ fmt (col_guid row) +:+
  ", CommentID=" +:+ fmt (col_comment_id row).

Definition add_row (row : Row) (st : State) : State :=
  let key := row_key row in
  if decide (key ∉ seen st)
  then mkState (rows st ++ [row]) ({[key]} ∪ seen st) (view_counter st) (debug_lines st)
  else log (duplicate_line row) st.

(** ** [recurse] *)

(** The three path columns of a row. *)
Definition path_category (new_path : list string) : option string :=
  if (0 <? length new_path)%nat then new_path !! 0%nat else None.

Definition path_level (new_path : list string) : option string :=
  if (1 <? length new_path)%nat then new_path !! 1%nat else None.

Definition path_subfolder (new_path : list string) : option string :=
  if (2 <? length new_path)%nat then Some (join " > " (drop 2 new_path)) else None.

Definition image_file_name (prefix : string) (counter : nat) : string :=
  prefix +:+ zfill 4 (str_nat counter) +:+ ".jpg".

Definition folder_line (new_path : list string) : string :=
  "📂 Entering folder: " +:+ join " > " new_path.

Definition view_line (view_name guid image_file : string) : string :=
  "  👀 Found view: " +:+ view_name +:+ " (GUID=" +:+ guid +:+ ") → " +:+ image_file.

Definition comment_line (cid status : string) (user : option string) : string :=
  "    💬 Comment ID=" +:+ cid +:+ ", Status=" +:+ status +:+ ", User=" +:+ fmt user.

Definition no_comments_line (view_name : string) : string :=
  "    ⚠️ No comments found for " +:+ view_name.

(** The body of [for comment in comments.findall("comment")]. *)
Definition comment_step (new_path : list string) (view_name guid image_file : string)
    (st : State) (comment : Element) : State :=
  let cid := attrib_get comment "id" "" in
  let status := attrib_get comment "status" "" in
  let user := findtext "user" comment in
  let body := findtext "body" comment in
  let created := find "createddate" comment in
  let (created_str, st) :=
    match created with
    | Some _ => parse_createddate created st
    | None => (None, st)
    end in
  let st := log (comment_line cid status user) st in
  add_row
    (mkRow (path_category new_path) (path_level new_path) (path_subfolder new_path)
       (Some view_name) (Some guid) (Some cid) (Some status) user body created_str
       (Some image_file))
    st.

(** [view_counter[0] += 1] *)
Definition bump_counter (st : State) : State :=
  mkState (rows st) (seen st) (S (view_counter st)) (debug_lines st).

(** The body of [for view in folder.findall("view")]. *)
Definition view_step (new_path : list string) (st : State) (view : Element) : State :=
  let st := bump_counter st in
  let view_name := attrib_get view "name" "" in
  let guid := attrib_get view "guid" "" in
  let image_file := image_file_name IMAGE_FILE_PREFIX (view_counter st) in
  let st := log (view_line view_name guid image_file) st in
  match find "comments" view with
  | Some comments =>
      fold_left (comment_step new_path view_name guid image_file)
        (findall "comment" comments) st
  | None =>
      let st := log (no_comments_line view_name) st in
      add_row
        (mkRow (path_category new_path) (path_level new_path) (path_subfolder new_path)
           (Some view_name) (Some guid) None None None None None
           (Some image_file))
        st
  end.

Fixpoint recurse (folder : Element) (path : list string) (st : State) : State :=
  match folder with
  | mkElement _ _ _ _ cs =>
      let folder_name := attrib_get folder "name" "" in
      let new_path := path ++ [folder_name] in
      let st := log (folder_line new_path) st in
      let st := fold_left (view_step new_path) (findall "view" folder) st in
      (fix children_loop (cs : list Element) (st : State) : State :=
         match cs with
         | [] => st
         | child :: cs' =>
             if has_tag "viewfolder" child
             then children_loop cs' (recurse child new_path st)
             else children_loop cs' st
         end) cs st
  end.

(** ** [process_xml] *)

Definition initial_state : State := mkState [] ∅ 0 [].

(** [root.findall("./viewpoints/viewfolder")] *)
Definition top_folders (root : Element) : list Element :=
  flat_map (findall "viewfolder") (findall "viewpoints" root).

(** The state the four shared objects are in when the walk ends; [root] is
    the root element [ET.parse] returned. *)
Definition walk (root : Element) : State :=
  fold_left (fun st vf => recurse vf [] st) (top_folders root) initial_state.

Definition process_xml (root : Element) : list Row * list string :=
  let st := walk root in
  (rows st, debug_lines st).

(* ===================================================================== *)
(** * Part 3: the legacy script, [1717 N FLAG/DB/ParseXml.py]             *)
(* ===================================================================== *)

(** The script keeps [rows], [debug_lines], [seen] and [view_counter] as
    module-level globals; [State] holds the four of them.  The document it
    reads is fixed by a path in the script; here its root is an argument. *)

Module Legacy.

Definition parse_createddate_try (created : option Element) : result (option string) :=
  let date_node :=
    match created with
    | Some c => find "date" c
    | None => None
    end in
  match date_node with
  | None => ok None
  | Some date_node =>
      let! year := int_attr date_node "year" in
      let! month := int_attr date_node "month" in
      let! day := int_attr date_node "day" in
      if ((year <? 1900) || (month =? 0) || (day =? 0))%Z
      then ok None
      else
        let! dt := datetime_new year month day in
        ok (Some (strftime_ymd dt))
  end.

Definition parse_createddate (created : option Element) (st : State)
  : option string * State :=
  match parse_createddate_try created with
  | inr r => (r, st)
  | inl e =>
      (None,
       mkState (rows st) (seen st) (view_counter st)
         (debug_lines st ++ [failure_line e created]))
  end.

Definition add_row (row : Row) (st : State) : State :=
  let key := (col_guid row, col_comment_id row) in
  if decide (key ∉ seen st)
  then mkState (rows st ++ [row]) ({[key]} ∪ seen st) (view_counter st) (debug_lines st)
  else mkState (rows st) (seen st) (view_counter st)
         (debug_lines st ++ [duplicate_line row]).

Definition append_debug (message : string) (st : State) : State :=
  mkState (rows st) (seen st) (view_counter st) (debug_lines st ++ [message]).

Definition comment_step (new_path : list string) (view_name guid image_file : string)
    (st : State) (comment : Element) : State :=
  let cid := attrib_get comment "id" "" in
  let status := attrib_get comment "status" "" in
  let user := findtext "user" comment in
  let body := findtext "body" comment in
  let created := find "createddate" comment in
  let (created_str, st) :=
    match created with
    | Some _ => parse_createddate created st
    | None => (None, st)
    end in
  let st := append_debug (comment_line cid status user) st in
  add_row
    (mkRow (path_category new_path) (path_level new_path) (path_subfolder new_path)
       (Some view_name) (Some guid) (Some cid) (Some status) user body created_str
       (Some image_file))
    st.

Definition view_step (new_path : list string) (st : State) (view : Element) : State :=
  let st := mkState (rows st) (seen st) (S (view_counter st)) (debug_lines st) in
  let view_name := attrib_get view "name" "" in
  let guid := attrib_get view "guid" "" in
  let image_file := "vp" +:+ zfill 4 (str_nat (view_counter st)) +:+ ".jpg" in
  let st := append_debug (view_line view_name guid image_file) st in
  match find "comments" view with
  | Some comments =>
      fold_left (comment_step new_path view_name guid image_file)
        (findall "comment" comments) st
  | None =>
      let st := append_debug (no_comments_line view_name) st in
      add_row
        (mkRow (path_category new_path) (path_level new_path) (path_subfolder new_path)
           (Some view_name) (Some guid) None None None None None
           (Some image_file))
        st
  end.

Fixpoint recurse (folder : Element) (path : list string) (st : State) : State :=
  match folder with
  | mkElement _ _ _ _ cs =>
      let folder_name := attrib_get folder "name" "" in
      let new_path := path ++ [folder_name] in
      let st := append_debug (folder_line new_path) st in
      let st := fold_left (view_step new_path) (findall "view" folder) st in
      (fix children_loop (cs : list Element) (st : State) : State :=
         match cs with
         | [] => st
         | child :: cs' =>
             if has_tag "viewfolder" child
             then children_loop cs' (recurse child new_path st)
             else children_loop cs' st
         end) cs st
  end.

(** The module body: the globals at their initial values, then the loop
    over [root.findall("./viewpoints/viewfolder")]; what the script
    writes out are [rows] and [debug_lines]. *)
Definition run (root : Element) : list Row * list string :=
  let st := fold_left (fun st vf => recurse vf [] st) (top_folders root)
              (mkState [] ∅ 0 []) in
  (rows st, debug_lines st).

End Legacy.

(* ===================================================================== *)
(** * Part 3, continued: the rest of the refactored program               *)
(* ===================================================================== *)

(** ** The world outside

    What the program asks of its surroundings: [Path(s)] (a path is kept as
    the text [str] gives for it), [is_file], the file dialog, the console
    input and [ET.parse].  The dialog is [None] when anything in it raises
    and the text it returns otherwise (empty when the user cancels); the
    input is [None] at the end of the input and the line typed otherwise. *)

Inductive exception : Type :=
  | Builtin (e : exn)
  | FileNotFoundError (msg : string)
  | EOFError (msg : string)
  | ParseError (msg : string).

Definition str_exception (exc : exception) : string :=
  match exc with
  | Builtin e => str_exn e
  | FileNotFoundError msg => msg
  | EOFError msg => msg
  | ParseError msg => msg
  end.

Record Outside : Type := mkOutside {
  Path : string -> string;
  is_file : string -> bool;
  askopenfilename : option string;
  input : option string;
  ET_parse : string -> exception + Element
}.

(** ** [choose_file_with_dialog] *)

Definition choose_file_with_dialog (w : Outside) : option string :=
  match askopenfilename w with
  | Some (String c s) => Some (Path w (String c s))
  | Some EmptyString => None
  | None => None
  end.

(** ** [ensure_xml_path]

    The result comes with the lines printed on the way. *)

Fixpoint lstrip_char (q : ascii) (l : list ascii) : list ascii :=
  match l with
  | c :: l' => if Ascii.eqb c q then lstrip_char q l' else l
  | [] => []
  end.

(** [s.strip(q)] for a single character [q] *)
Definition strip_char (q : ascii) (l : list ascii) : list ascii :=
  rev (lstrip_char q (rev (lstrip_char q l))).

(** The line typed, stripped of surrounding blanks and then of surrounding
    double quotes: [input().strip()] followed by [strip] of the quote. *)
Definition typed_path (line : string) : string :=
  string_of_list_ascii (strip_char quote_char (strip (list_ascii_of_string line))).

Definition ensure_xml_path (w : Outside) (cli_path : option string)
  : list string * (exception + string) :=
  match cli_path with
  | Some (String c s) =>
      let path := Path w (String c s) in
      if is_file w path then ([], inr path)
      else ([], inl (FileNotFoundError ("XML file not found: " +:+ String c s)))
  | _ =>
      match choose_file_with_dialog w with
      | Some selected =>
          if is_file w selected then ([], inr selected)
          else ([], inl (FileNotFoundError ("Selected file not found: " +:+ selected)))
      | None =>
          let printed := ["Please enter the path to the XML file:"] in
          match input w with
          | None => (printed, inl (EOFError "EOF when reading a line"))
          | Some line =>
              match typed_path line with
              | EmptyString => (printed, inl (Builtin (ValueError "No XML file selected.")))
              | String c s =>
                  let path := Path w (String c s) in
                  if is_file w path then (printed, inr path)
                  else (printed,
                        inl (FileNotFoundError ("XML file not found: " +:+ path)))
              end
          end
      end
  end.

(** ** The walk with the echoing [log]

    [process_xml] hands the walk a [log] that appends to [debug_lines] and,
    under [stream_debug], prints the message as well.  [Echo] is the walk
    of Part 2 with the console beside the four shared objects. *)

Module Echo.

Record Session : Type := mkSession {
  shared : State;
  console : list string
}.

Definition log (stream_debug : bool) (message : string) (ss : Session) : Session :=
  mkSession
    (mkState (rows (shared ss)) (seen (shared ss)) (view_counter (shared ss))
       (debug_lines (shared ss) ++ [message]))
    (if stream_debug then console ss ++ [message] else console ss).

Definition parse_createddate (stream_debug : bool) (created : option Element)
    (ss : Session) : option string * Session :=
  match parse_createddate_try created with
  | inr r => (r, ss)
  | inl e => (None, log stream_debug (failure_line e created) ss)
  end.

Definition add_row (stream_debug : bool) (row : Row) (ss : Session) : Session :=
  let key := (col_guid row, col_comment_id row) in
  let st := shared ss in
  if decide (key ∉ seen st)
  then mkSession
         (mkState (rows st ++ [row]) ({[key]} ∪ seen st) (view_counter st) (debug_lines st))
         (console ss)
  else log stream_debug (duplicate_line row) ss.

Definition comment_step (stream_debug : bool) (new_path : list string)
    (view_name guid image_file : string) (ss : Session) (comment : Element) : Session :=
  let cid := attrib_get comment "id" "" in
  let status := attrib_get comment "status" "" in
  let user := findtext "user" comment in
  let body := findtext "body" comment in
  let created := find "createddate" comment in
  let (created_str, ss) :=
    match created with
    | Some _ => parse_createddate stream_debug created ss
    | None => (None, ss)
    end in
  let ss := log stream_debug (comment_line cid status user) ss in
  add_row stream_debug
    (mkRow (path_category new_path) (path_level new_path) (path_subfolder new_path)
       (Some view_name) (Some guid) (Some cid) (Some status) user body created_str
       (Some image_file))
    ss.

Definition view_step (stream_debug : bool) (new_path : list string)
    (ss : Session) (view : Element) : Session :=
  let st := shared ss in
  let ss := mkSession
              (mkState (rows st) (seen st) (S (view_counter st)) (debug_lines st))
              (console ss) in
  let view_name := attrib_get view "name" "" in
  let guid := attrib_get view "guid" "" in
  let image_file := image_file_name IMAGE_FILE_PREFIX (view_counter (shared ss)) in
  let ss := log stream_debug (view_line view_name guid image_file) ss in
  match find "comments" view with
  | Some comments =>
      fold_left (comment_step stream_debug new_path view_name guid image_file)
        (findall "comment" comments) ss
  | None =>
      let ss := log stream_debug (no_comments_line view_name) ss in
      add_row stream_debug
        (mkRow (path_category new_path) (path_level new_path) (path_subfolder new_path)
           (Some view_name) (Some guid) None None None None None
           (Some image_file))
        ss
  end.

Fixpoint recurse (stream_debug : bool) (folder : Element) (path : list string)
    (ss : Session) : Session :=
  match folder with
  | mkElement _ _ _ _ cs =>
      let folder_name := attrib_get folder "name" "" in
      let new_path := path ++ [folder_name] in
      let ss := log stream_debug (folder_line new_path) ss in
      let ss := fold_left (view_step stream_debug new_path) (findall "view" folder) ss in
      (fix children_loop (cs : list Element) (ss : Session) : Session :=
         match cs with
         | [] => ss
         | child :: cs' =>
             if has_tag "viewfolder" child
             then children_loop cs' (recurse stream_debug child new_path ss)
             else children_loop cs' ss
         end) cs ss
  end.

Definition walk (stream_debug : bool) (root : Element) : Session :=
  fold_left (fun ss vf => recurse stream_debug vf [] ss) (top_folders root)
    (mkSession (mkState [] ∅ 0 []) []).

End Echo.

(** [process_xml(xml_path, stream_debug)] in full: parse the file, then
    walk.  The result comes with the lines printed on the way. *)
Definition process_xml_path (w : Outside) (xml_path : string) (stream_debug : bool)
  : list string * (exception + (list Row * list string)) :=
  match ET_parse w xml_path with
  | inl exc => ([], inl exc)
  | inr root =>
      let ss := Echo.walk stream_debug root in
      (Echo.console ss, inr (rows (Echo.shared ss), debug_lines (Echo.shared ss)))
  end.

(** ** [write_outputs]

    [csv.writer] in its default dialect: fields joined by commas, a field
    put between double quotes, its own quotes doubled, when it holds a
    comma, a double quote, a carriage return or a line feed; [None] written
    as the empty field; a record that would be empty written as two quotes;
    every record ended by carriage return and line feed. *)

Definition CR : ascii := ascii_of_nat 13.
Definition LF : ascii := ascii_of_nat 10.

Definition csv_special (c : ascii) : bool :=
  (Ascii.eqb c "," || Ascii.eqb c quote_char || Ascii.eqb c CR || Ascii.eqb c LF)%bool.

Fixpoint csv_needs_quotes (s : string) : bool :=
  match s with
  | EmptyString => false
  | String c s' => (csv_special c || csv_needs_quotes s')%bool
  end.

Fixpoint csv_double_quotes (s : string) : string :=
  match s with
  | EmptyString => ""
  | String c s' =>
      if Ascii.eqb c quote_char
      then String quote_char (String quote_char (csv_double_quotes s'))
      else String c (csv_double_quotes s')
  end.

Definition csv_field (field : option string) : string :=
  match field with
  | None => ""
  | Some s =>
      if csv_needs_quotes s
      then String quote_char (csv_double_quotes s +:+ String quote_char "")
      else s
  end.

(** [writer.writerow(fields)]: the text of one record. *)
Definition csv_record (fields : list (option string)) : string :=
  let body := join "," (map csv_field fields) in
  match fields, body with
  | _ :: _, EmptyString => String quote_char (String quote_char (String CR (String LF "")))
  | _, _ => body +:+ String CR (String LF "")
  end.

Definition csv_header : list (option string) :=
  [Some "Category"; Some "Level"; Some "Subfolder"; Some "ViewName"; Some "GUID";
   Some "CommentID"; Some "Status"; Some "User"; Some "Body"; Some "CreatedDate";
   Some "ImagePath"].

(** A row as the list of its eleven elements. *)
Definition row_fields (row : Row) : list (option string) :=
  [col_category row; col_level row; col_subfolder row; col_view_name row; col_guid row;
   col_comment_id row; col_status row; col_user row; col_body row;
   col_created_date row; col_image_path row].

Fixpoint csv_records (rows : list Row) : string :=
  match rows with
  | [] => ""
  | row :: rows' => csv_record (row_fields row) +:+ csv_records rows'
  end.

(** What is written to the CSV file and to [debug.txt]. *)
Definition csv_text (rows : list Row) : string :=
  csv_record csv_header +:+ csv_records rows.

Definition debug_text (debug_lines : list string) : string :=
  join (String LF "") debug_lines.

(** The files are a map from name to text; opening with ["w"] replaces
    what the name held.  Opening and writing are taken to succeed, and the
    line feeds of [debug.txt] to be written as they are. *)
Definition write_outputs (rows : list Row) (debug_lines : list string)
    (files : gmap string string) : gmap string string :=
  <["debug.txt" := debug_text debug_lines]> (<[CSV_FILE_NAME := csv_text rows]> files).

(** ** [main]

    After the arguments are parsed: [path] is the optional positional
    argument and [stream_debug] the flag.  The result is the files, the
    lines printed and the exit status.  The exceptions met are those of
    the path resolution and of the parse; the interpreter's limit on the
    depth of recursion is left out, as in the walk. *)

Definition error_line (exc : exception) : string := "❌ Error: " +:+ str_exception exc.

Definition complete_line : string :=
  "✅ Processing complete. Check navisworks_views_comments.csv and debug.txt".

Definition main (w : Outside) (path : option string) (stream_debug : bool)
    (files : gmap string string) : gmap string string * list string * nat :=
  let (printed, resolved) := ensure_xml_path w path in
  match resolved with
  | inl exc => (files, printed ++ [error_line exc], 1)
  | inr xml_path =>
      let (echoed, processed) := process_xml_path w xml_path stream_debug in
      match processed with
      | inl exc => (files, printed ++ echoed ++ [error_line exc], 1)
      | inr (rows, debug_lines) =>
          (write_outputs rows debug_lines files,
           printed ++ echoed ++ [complete_line], 0)
      end
  end.

(* ===================================================================== *)
(** * Part 4: the vocabulary of the properties                            *)
(* ===================================================================== *)

(** The notions the statements of Part 5 are written with, and the sample
    documents they are tried on. *)

(** The path a folder hands to its views and to its child folders. *)
Definition new_path_of (folder : Element) (path : list string) : list string :=
  path ++ [attrib_get folder "name" ""].

(** The keys of the accepted rows are pairwise distinct, and [seen] holds
    exactly those keys. *)
Definition dedup_inv (st : State) : Prop :=
  NoDup (map row_key (rows st)) /\
  forall k : Key, k ∈ seen st <-> k ∈ map row_key (rows st).

(** The views under a folder, each with the path its rows are built from:
    the folder's own views first, then those of each child folder in turn. *)
Fixpoint views_of (folder : Element) (path : list string) : list (list string * Element) :=
  match folder with
  | mkElement _ _ _ _ cs =>
      let new_path := path ++ [attrib_get folder "name" ""] in
      map (pair new_path) (findall "view" folder) ++
      (fix below (cs : list Element) : list (list string * Element) :=
         match cs with
         | [] => []
         | child :: cs' =>
             if has_tag "viewfolder" child
             then views_of child new_path ++ below cs'
             else below cs'
         end) cs
  end.

Definition discovered_views (root : Element) : list (list string * Element) :=
  flat_map (fun vf => views_of vf []) (top_folders root).

(** The number of view nodes in a folder's subtree: the [view] children of
    the folder and of every folder nested in it, at any depth, through
    [viewfolder] children. *)
Fixpoint count_views (folder : Element) : nat :=
  match folder with
  | mkElement _ _ _ _ cs =>
      length (findall "view" folder) +
      (fix below (cs : list Element) : nat :=
         match cs with
         | [] => 0
         | child :: cs' =>
             if has_tag "viewfolder" child
             then count_views child + below cs'
             else below cs'
         end) cs
  end.

Definition count_document_views (root : Element) : nat :=
  list_sum (map count_views (top_folders root)).

(** A view-discovery line is the only kind of line that starts with two
    blanks followed by the eyes sign. *)
Definition is_view_line (line : string) : bool := String.prefix "  👀 Found view: " line.

Definition view_lines (lines : list string) : list string := List.filter is_view_line lines.

(** The view-discovery lines of the views [vs] when [c] views were
    discovered before them. *)
Fixpoint view_lines_from (c : nat) (vs : list Element) : list string :=
  match vs with
  | [] => []
  | v :: vs' =>
      view_line (attrib_get v "name" "") (attrib_get v "guid" "")
        (image_file_name IMAGE_FILE_PREFIX (S c))
      :: view_lines_from (S c) vs'
  end.

(** Row [r] was built for view [v], discovered as number [k] under path [p]. *)
Definition row_of_view (p : list string) (v : Element) (k : nat) (r : Row) : Prop :=
  col_category r = path_category p /\
  col_level r = path_level p /\
  col_subfolder r = path_subfolder p /\
  col_view_name r = Some (attrib_get v "name" "") /\
  col_guid r = Some (attrib_get v "guid" "") /\
  col_image_path r = Some (image_file_name IMAGE_FILE_PREFIX k) /\
  ((col_comment_id r = None /\ col_status r = None /\ col_user r = None /\
    col_body r = None /\ col_created_date r = None) \/
   (exists cid status : string,
       col_comment_id r = Some cid /\ col_status r = Some status)).

(** A stretch of the program that discovers no view: the counter and the
    view-discovery lines stay, and every row it appends satisfies [Q]. *)
Definition quiet_effect (Q : Row -> Prop) (st st' : State) : Prop :=
  view_counter st' = view_counter st /\
  view_lines (debug_lines st') = view_lines (debug_lines st) /\
  exists new, rows st' = rows st ++ new /\ Forall Q new.

(** A stretch that discovers the views [vs], in that order. *)
Definition walk_effect (vs : list (list string * Element)) (st st' : State) : Prop :=
  view_counter st' = view_counter st + length vs /\
  view_lines (debug_lines st')
  = view_lines (debug_lines st) ++ view_lines_from (view_counter st) (map snd vs) /\
  exists new,
    rows st' = rows st ++ new /\
    Forall (fun r => exists i p v,
                vs !! i = Some (p, v) /\ row_of_view p v (view_counter st + 1 + i) r) new.

(** [s.endswith(suffix)] *)
Definition endswith (s suffix : string) : bool :=
  let n := String.length s in
  let m := String.length suffix in
  ((m <=? n)%nat && String.eqb (substring (n - m) m s) suffix)%bool.

(** The number an image reference was made from can be read back from the
    digits that follow the prefix. *)
Definition digit_of (c : ascii) : option nat :=
  let n := nat_of_ascii c in
  if ((48 <=? n) && (n <=? 57))%nat%bool then Some (n - 48) else None.

Fixpoint digits_value (acc : nat) (s : string) : nat :=
  match s with
  | String c s' =>
      match digit_of c with
      | Some d => digits_value (10 * acc + d) s'
      | None => acc
      end
  | EmptyString => acc
  end.

Definition no_comment_view (name guid : string) : Element :=
  mkElement "view" [("name", name); ("guid", guid)] None None [].

(** A document with one folder holding seven views. *)
Definition seven_views_document : Element :=
  mkElement "exchange" [] None None
    [mkElement "viewpoints" [] None None
       [mkElement "viewfolder" [("name", "A")] None None
          [no_comment_view "V1" "G1"; no_comment_view "V2" "G2";
           no_comment_view "V3" "G3"; no_comment_view "V4" "G4";
           no_comment_view "V5" "G5"; no_comment_view "V6" "G6";
           no_comment_view "V7" "G7"]]].

Definition date_element (year month day : string) : Element :=
  mkElement "date" [("year", year); ("month", month); ("day", day)] None None [].

Definition createddate_element (year month day : string) : Element :=
  mkElement "createddate" [] None None [date_element year month day].

(** A calendar date [datetime] accepts. *)
Definition valid_date (y m d : Z) : Prop :=
  (1 <= y <= 9999 /\ 1 <= m <= 12 /\ 1 <= d <= days_in_month y m)%Z.

(** Decides [valid_date] and its negation on literals. *)
Ltac date_literal := unfold valid_date; vm_compute; intuition congruence.

(** One of the three fields is present and is no integer literal. *)
Definition non_numeric_field (dn : Element) : Prop :=
  exists key v : string,
    (key = "year" \/ key = "month" \/ key = "day") /\
    dict_get key (attrib dn) = Some v /\ int_literal v = None.

(** The three fields are read, pass the guard, and form no date. *)
Definition impossible_date (dn : Element) : Prop :=
  exists y m d : Z,
    int_attr dn "year" = ok y /\ int_attr dn "month" = ok m /\ int_attr dn "day" = ok d /\
    (1900 <= y)%Z /\ m <> 0%Z /\ d <> 0%Z /\ ~ valid_date y m d.

(** The row of a view that has no [comments] element. *)
Definition no_comment_row (new_path : list string) (view : Element) (counter : nat) : Row :=
  mkRow (path_category new_path) (path_level new_path) (path_subfolder new_path)
    (Some (attrib_get view "name" "")) (Some (attrib_get view "guid" ""))
    None None None None None
    (Some (image_file_name IMAGE_FILE_PREFIX counter)).

Definition found_line (view : Element) (counter : nat) : string :=
  view_line (attrib_get view "name" "") (attrib_get view "guid" "")
    (image_file_name IMAGE_FILE_PREFIX counter).

(** Two views without comments and without identifier, in one folder. *)
Definition two_unidentified_views_document : Element :=
  mkElement "exchange" [] None None
    [mkElement "viewpoints" [] None None
       [mkElement "viewfolder" [("name", "A")] None None
          [mkElement "view" [("name", "V1")] None None [];
           mkElement "view" [("name", "V2")] None None []]]].

Definition is_no_comments_line (line : string) : bool :=
  String.prefix "    ⚠️ No comments found for " line.

Definition no_comments_lines (lines : list string) : list string :=
  List.filter is_no_comments_line lines.

Definition empty_comments_view : Element :=
  mkElement "view" [("name", "V1"); ("guid", "G1")] None None
    [mkElement "comments" [] None None []].

Definition folder_element (name : string) (cs : list Element) : Element :=
  mkElement "viewfolder" [("name", name)] None None cs.

(** A view four folders deep: Cat, Sub, D1, D2. *)
Definition nested_document : Element :=
  mkElement "exchange" [] None None
    [mkElement "viewpoints" [] None None
       [folder_element "Cat"
          [folder_element "Sub"
             [folder_element "D1"
                [folder_element "D2" [no_comment_view "V" "G"]]]]]].

(** The element with the attribute [key] added, empty, when it has none. *)
Definition with_default (key : string) (e : Element) : Element :=
  match dict_get key (attrib e) with
  | Some _ => e
  | None => mkElement (tag e) (attrib e ++ [(key, "")]) (text e) (tail e) (children e)
  end.

Definition map_children (g : Element -> Element) (e : Element) : Element :=
  mkElement (tag e) (attrib e) (text e) (tail e) (map g (children e)).

(** The document with every attribute the walk reads made explicit: [id]
    and [status] on comments, [name] and [guid] on views, [name] on
    folders. *)
Definition fill_comment (c : Element) : Element :=
  with_default "id" (with_default "status" c).

Definition fill_comments (comments : Element) : Element :=
  map_children (fun c => if has_tag "comment" c then fill_comment c else c) comments.

Definition fill_view (v : Element) : Element :=
  with_default "name"
    (with_default "guid"
       (map_children (fun c => if has_tag "comments" c then fill_comments c else c) v)).

Fixpoint fill_folder (folder : Element) : Element :=
  match folder with
  | mkElement t a x l cs =>
      with_default "name"
        (mkElement t a x l
           (map (fun c =>
                   if has_tag "view" c then fill_view c
                   else if has_tag "viewfolder" c then fill_folder c
                   else c) cs))
  end.

Definition fill_document (root : Element) : Element :=
  map_children
    (fun vp =>
       if has_tag "viewpoints" vp
       then map_children (fun vf => if has_tag "viewfolder" vf then fill_folder vf else vf) vp
       else vp)
    root.

(** A document in which no element carries any attribute. *)
Definition bare_document : Element :=
  mkElement "exchange" [] None None
    [mkElement "viewpoints" [] None None
       [mkElement "viewfolder" [] None None
          [mkElement "view" [] None None
             [mkElement "comments" [] None None
                [mkElement "comment" [] None None []]];
           mkElement "view" [] None None []]]].

Definition set_image_path (im : option string) (r : Row) : Row :=
  mkRow (col_category r) (col_level r) (col_subfolder r) (col_view_name r) (col_guid r)
    (col_comment_id r) (col_status r) (col_user r) (col_body r) (col_created_date r) im.

(** Two rows that agree on the first ten columns and carry the image
    reference of the same sequence number, each with its program's prefix. *)
Definition row_sim (legacy refactored : Row) : Prop :=
  exists n : nat,
    col_image_path legacy = Some ("vp" +:+ zfill 4 (str_nat n) +:+ ".jpg") /\
    col_image_path refactored
    = Some ("navisworks_views_comments_vp" +:+ zfill 4 (str_nat n) +:+ ".jpg") /\
    set_image_path None legacy = set_image_path None refactored.

(** Two diagnostic lines that are equal, or are the view-discovery lines of
    the same view and sequence number, each citing its program's reference. *)
Definition line_sim (legacy refactored : string) : Prop :=
  legacy = refactored \/
  exists (view_name guid : string) (n : nat),
    legacy = view_line view_name guid ("vp" +:+ zfill 4 (str_nat n) +:+ ".jpg") /\
    refactored
    = view_line view_name guid
        ("navisworks_views_comments_vp" +:+ zfill 4 (str_nat n) +:+ ".jpg").

Definition state_sim (sl sr : State) : Prop :=
  Forall2 row_sim (rows sl) (rows sr) /\
  seen sl = seen sr /\
  view_counter sl = view_counter sr /\
  Forall2 line_sim (debug_lines sl) (debug_lines sr).

(** The document of the end-to-end scenario: folder A, view V1 with
    identifier G1, comments C1 and C2 and a repeated C1. *)
Definition comment_element (id : string) : Element :=
  mkElement "comment" [("id", id); ("status", "Active")] None None
    [mkElement "user" [] (Some "bob") None [];
     mkElement "createddate" [] None None [date_element "2024" "3" "5"]].

Definition sample_document : Element :=
  mkElement "exchange" [] None None
    [mkElement "viewpoints" [] None None
       [mkElement "viewfolder" [("name", "A")] None None
          [mkElement "view" [("name", "V1"); ("guid", "G1")] None None
             [mkElement "comments" [] None None
                [comment_element "C1"; comment_element "C2"; comment_element "C1"]]]]].

(** A duplicate line is the only kind of line that starts with the warning
    sign at the first column. *)
Definition is_duplicate_line (line : string) : bool :=
  String.prefix "⚠️ Duplicate skipped: GUID=" line.

Definition duplicate_lines (lines : list string) : list string :=
  List.filter is_duplicate_line lines.

(** The number of rows the walk submits for a view: one per [comment] of
    its [comments] element, one when it has no such element. *)
Definition view_submissions (view : Element) : nat :=
  match find "comments" view with
  | Some comments => length (findall "comment" comments)
  | None => 1
  end.

Definition submissions (vs : list (list string * Element)) : nat :=
  list_sum (map (fun pv => view_submissions (snd pv)) vs).

(** Rows accepted plus rows reported as duplicates. *)
Definition settled (st : State) : nat :=
  length (rows st) + length (duplicate_lines (debug_lines st)).

(** A list of numbers that never goes down. *)
Definition nondecreasing (ks : list nat) : Prop :=
  forall (i j a b : nat), i <= j -> ks !! i = Some a -> ks !! j = Some b -> a <= b.

(** The image reference of sequence number [k]. *)
Definition reference (k : nat) : option string :=
  Some (image_file_name IMAGE_FILE_PREFIX k).

(** A stretch of the program whose new rows carry the references of the
    numbers [ks], all handed out during the stretch, in nondecreasing order. *)
Definition ordered_effect (st st' : State) : Prop :=
  view_counter st <= view_counter st' /\
  exists (new : list Row) (ks : list nat),
    rows st' = rows st ++ new /\
    map col_image_path new = map reference ks /\
    Forall (fun k => view_counter st < k <= view_counter st') ks /\
    nondecreasing ks.

(** Reading a ["YYYY/MM/DD"] string back: the three numbers between the
    slashes. *)
Fixpoint after_slash (s : string) : string :=
  match s with
  | EmptyString => ""
  | String c s' => if Ascii.eqb c "/" then s' else after_slash s'
  end.

Definition decode_ymd (s : string) : nat * nat * nat :=
  (digits_value 0 s,
   digits_value 0 (after_slash s),
   digits_value 0 (after_slash (after_slash s))).

(** The session of the echoing walk shows state [st], and its console
    shows the diagnostic lines when [stream_debug] is set and nothing
    otherwise. *)
Definition mirrors (stream_debug : bool) (ss : Echo.Session) (st : State) : Prop :=
  Echo.shared ss = st /\
  Echo.console ss = if stream_debug then debug_lines st else [].

(** A world where only [model.xml] is a file, holding the sample document;
    the dialog is cancelled and nothing is typed. *)
Definition sample_outside : Outside :=
  mkOutside (fun s => s) (fun p => String.eqb p "model.xml") (Some "") (Some "")
    (fun p => if String.eqb p "model.xml" then inr sample_document
              else inl (FileNotFoundError "No such file or directory")).

(** A text made of blanks only. *)
Definition all_blank (s : string) : bool := forallb is_space (list_ascii_of_string s).

(** A text made of double quotes only. *)
Definition all_quotes (s : string) : bool :=
  forallb (fun c => Ascii.eqb c quote_char) (list_ascii_of_string s).

(** A character that neither [strip()] nor the strip of quotes removes. *)
Definition edge_ok (c : ascii) : bool := (negb (is_space c) && negb (Ascii.eqb c quote_char))%bool.

(** A non-empty text whose first and last characters are neither blanks nor
    double quotes. *)
Definition clean (p : string) : bool :=
  match list_ascii_of_string p with
  | a :: l => (edge_ok a && edge_ok (List.last l a))%bool
  | [] => false
  end.

Definition prompt_line : string := "Please enter the path to the XML file:".

(** A reader for the CSV text, after [csv.reader] in its default dialect:
    fields end at a comma, records at a carriage return or a line feed (a
    line feed right after a carriage return is skipped), a field that opens
    with a double quote runs to the next single double quote, and two
    double quotes inside it stand for one. *)
Inductive csv_state : Type := FieldStart | Unquoted | Quoted | QuoteSeen | AfterCR.

Fixpoint csv_scan (state : csv_state) (field : string) (record : list string)
    (s : string) : list (list string) :=
  match s with
  | EmptyString =>
      match state, record with
      | FieldStart, [] => []
      | AfterCR, _ => []
      | _, _ => [record ++ [field]]
      end
  | String c s' =>
      let at_start (record : list string) :=
        if Ascii.eqb c quote_char then csv_scan Quoted "" record s'
        else if Ascii.eqb c "," then csv_scan FieldStart "" (record ++ [""]) s'
        else if Ascii.eqb c CR then
          match record with
          | [] => []
          | _ => record ++ [""]
          end :: csv_scan AfterCR "" [] s'
        else if Ascii.eqb c LF then
          match record with
          | [] => []
          | _ => record ++ [""]
          end :: csv_scan FieldStart "" [] s'
        else csv_scan Unquoted (String c "") record s' in
      let at_end_of_field (otherwise : list (list string)) :=
        if Ascii.eqb c "," then csv_scan FieldStart "" (record ++ [field]) s'
        else if Ascii.eqb c CR then (record ++ [field]) :: csv_scan AfterCR "" [] s'
        else if Ascii.eqb c LF then (record ++ [field]) :: csv_scan FieldStart "" [] s'
        else otherwise in
      match state with
      | FieldStart => at_start record
      | Unquoted => at_end_of_field (csv_scan Unquoted (field +:+ String c "") record s')
      | Quoted =>
          if Ascii.eqb c quote_char then csv_scan QuoteSeen field record s'
          else csv_scan Quoted (field +:+ String c "") record s'
      | QuoteSeen =>
          if Ascii.eqb c quote_char
          then csv_scan Quoted (field +:+ String quote_char "") record s'
          else at_end_of_field (csv_scan Unquoted (field +:+ String c "") record s')
      | AfterCR =>
          if Ascii.eqb c LF then csv_scan FieldStart "" [] s' else at_start []
      end
  end.

Definition csv_read (text : string) : list (list string) := csv_scan FieldStart "" [] text.

(** The fields of a row as they read back: [None] as the empty string. *)
Definition shown (fields : list (option string)) : list string :=
  map (fun f => match f with Some s => s | None => "" end) fields.

(** Splitting a text at its line feeds. *)
Fixpoint split_lines (current : string) (s : string) : list string :=
  match s with
  | EmptyString => [current]
  | String c s' =>
      if Ascii.eqb c LF then current :: split_lines "" s'
      else split_lines (current +:+ String c "") s'
  end.

Fixpoint has_line_feed (s : string) : bool :=
  match s with
  | EmptyString => false
  | String c s' => (Ascii.eqb c LF || has_line_feed s')%bool
  end.

(** The rows the walk submits, as a list: the created date a comment gets,
    the row of a comment, the rows of a view discovered as number [k] and
    the rows of a list of views of which [c] were discovered before. *)
Definition created_date_of (comment : Element) : option string :=
  match find "createddate" comment with
  | Some _ =>
      match parse_createddate_try (find "createddate" comment) with
      | inr r => r
      | inl _ => None
      end
  | None => None
  end.

Definition comment_row (new_path : list string) (view : Element) (k : nat)
    (comment : Element) : Row :=
  mkRow (path_category new_path) (path_level new_path) (path_subfolder new_path)
    (Some (attrib_get view "name" "")) (Some (attrib_get view "guid" ""))
    (Some (attrib_get comment "id" "")) (Some (attrib_get comment "status" ""))
    (findtext "user" comment) (findtext "body" comment) (created_date_of comment)
    (Some (image_file_name IMAGE_FILE_PREFIX k)).

Definition view_rows (new_path : list string) (view : Element) (k : nat) : list Row :=
  match find "comments" view with
  | Some comments => map (comment_row new_path view k) (findall "comment" comments)
  | None => [no_comment_row new_path view k]
  end.

Fixpoint submitted_from (c : nat) (vs : list (list string * Element)) : list Row :=
  match vs with
  | [] => []
  | (p, v) :: vs' => view_rows p v (S c) ++ submitted_from (S c) vs'
  end.

(** First occurrence wins: a row joins the accepted rows, and its key the
    keys, unless the key is there already. *)
Definition accept (acc : list Row * gset Key) (row : Row) : list Row * gset Key :=
  if decide (row_key row ∉ snd acc)
  then (fst acc ++ [row], {[row_key row]} ∪ snd acc)
  else acc.

(** A stretch of the program that submits the rows [cands], in that order. *)
Definition feeds (cands : list Row) (st st' : State) : Prop :=
  (rows st', seen st') = fold_left accept cands (rows st, seen st).

(* ===================================================================== *)
(** * Part 5: properties                                                  *)
(* ===================================================================== *)

(** ** The shape of [recurse] *)

Lemma children_loop_fold (f : State -> Element -> State) (cs : list Element) (st : State) :
  (fix children_loop (cs : list Element) (st : State) : State :=
     match cs with
     | [] => st
     | child :: cs' =>
         if has_tag "viewfolder" child
         then children_loop cs' (f st child)
         else children_loop cs' st
     end) cs st
  = fold_left f (List.filter (has_tag "viewfolder") cs) st.
Proof.
  revert st. induction cs as [|c cs IHcs]; intros st; simpl.
  - reflexivity.
  - destruct (has_tag "viewfolder" c); simpl; apply IHcs.
Qed.

(** [recurse] as the source reads: log the folder, loop over the views, then
    loop over the child folders. *)
Lemma recurse_unfold (folder : Element) (path : list string) (st : State) :
  recurse folder path st
  = fold_left (fun st child => recurse child (new_path_of folder path) st)
      (findall "viewfolder" folder)
      (fold_left (view_step (new_path_of folder path)) (findall "view" folder)
         (log (folder_line (new_path_of folder path)) st)).
Proof.
  destruct folder as [t a x l cs]. unfold findall at 1. simpl.
  rewrite children_loop_fold. reflexivity.
Qed.

Lemma legacy_recurse_unfold (folder : Element) (path : list string) (st : State) :
  Legacy.recurse folder path st
  = fold_left (fun st child => Legacy.recurse child (new_path_of folder path) st)
      (findall "viewfolder" folder)
      (fold_left (Legacy.view_step (new_path_of folder path)) (findall "view" folder)
         (Legacy.append_debug (folder_line (new_path_of folder path)) st)).
Proof.
  destruct folder as [t a x l cs]. unfold findall at 1. simpl.
  rewrite children_loop_fold. reflexivity.
Qed.

Lemma Forall_findall (P : Element -> Prop) (name : string) (e : Element) :
  Forall P (children e) -> Forall P (findall name e).
Proof.
  unfold findall. intros H. rewrite List.Forall_forall in *.
  intros c Hc. apply List.filter_In in Hc. apply H, Hc.
Qed.

Lemma fold_left_preserves {A : Type} (P : State -> Prop) (f : State -> A -> State)
    (l : list A) (st : State) :
  Forall (fun x => forall st, P st -> P (f st x)) l -> P st -> P (fold_left f l st).
Proof.
  revert st. induction l as [|x l IHl]; intros st Hall Hst; simpl.
  - exact Hst.
  - inversion Hall; subst. apply IHl; auto.
Qed.

(** ** Properties kept by every elementary step

    Whatever holds initially and is kept by [log], [bump_counter] and
    [add_row] holds after the walk: these three are the only ways the
    program touches the shared objects. *)

Section step_closed.
Variable P : State -> Prop.
Hypothesis P_log : forall m st, P st -> P (log m st).
Hypothesis P_bump : forall st, P st -> P (bump_counter st).
Hypothesis P_add : forall row st, P st -> P (add_row row st).

Lemma parse_createddate_closed (created : option Element) (st : State) :
  P st -> P (snd (parse_createddate created st)).
Proof.
  intros H. unfold parse_createddate.
  destruct (parse_createddate_try created); simpl; auto.
Qed.

Lemma comment_step_closed p vn g im (st : State) (c : Element) :
  P st -> P (comment_step p vn g im st c).
Proof.
  intros H. unfold comment_step.
  destruct (find "createddate" c) as [d|].
  - pose proof (parse_createddate_closed (Some d) st H) as H'.
    destruct (parse_createddate (Some d) st) as [r st']. simpl in H'. auto.
  - auto.
Qed.

Lemma view_step_closed p (st : State) (v : Element) :
  P st -> P (view_step p st v).
Proof.
  intros H. unfold view_step.
  destruct (find "comments" v) as [cs|].
  - apply fold_left_preserves; auto.
    apply List.Forall_forall. intros c _ st'. apply comment_step_closed.
  - auto.
Qed.

Lemma recurse_closed (folder : Element) :
  forall path st, P st -> P (recurse folder path st).
Proof.
  induction folder as [t a x l cs IHcs] using Element_nested_ind.
  intros path st H. rewrite recurse_unfold.
  apply fold_left_preserves.
  - apply Forall_findall. simpl.
    eapply List.Forall_impl; [|exact IHcs]. simpl. intros c Hc st'. apply Hc.
  - apply fold_left_preserves; auto.
    apply List.Forall_forall. intros v _ st'. apply view_step_closed.
Qed.

Lemma walk_closed (root : Element) : P initial_state -> P (walk root).
Proof.
  intros H. unfold walk. apply fold_left_preserves; auto.
  apply List.Forall_forall. intros vf _ st'. apply recurse_closed.
Qed.
End step_closed.

(** ** The deduplication invariant *)

Lemma add_row_new (row : Row) (st : State) :
  row_key row ∉ seen st ->
  add_row row st
  = mkState (rows st ++ [row]) ({[row_key row]} ∪ seen st) (view_counter st) (debug_lines st).
Proof.
  intros H. unfold add_row. destruct (decide (row_key row ∉ seen st)); [reflexivity|contradiction].
Qed.

Lemma add_row_duplicate (row : Row) (st : State) :
  row_key row ∈ seen st ->
  add_row row st
  = mkState (rows st) (seen st) (view_counter st) (debug_lines st ++ [duplicate_line row]).
Proof.
  intros H. unfold add_row. destruct (decide (row_key row ∉ seen st)); [contradiction|reflexivity].
Qed.

Lemma dedup_inv_initial : dedup_inv initial_state.
Proof.
  split; simpl.
  - constructor.
  - intros k. split; intros H.
    + exfalso. revert H. apply not_elem_of_empty.
    + inversion H.
Qed.

Lemma dedup_inv_add_row (row : Row) (st : State) :
  dedup_inv st -> dedup_inv (add_row row st).
Proof.
  intros [Hnd Hseen]. destruct (decide (row_key row ∉ seen st)) as [Hnew|Hold].
  - rewrite add_row_new by assumption. split; simpl.
    + rewrite map_app. simpl. apply NoDup_app. repeat split.
      * exact Hnd.
      * intros k Hk Hk'. apply list_elem_of_singleton in Hk'. subst k.
        apply Hnew, Hseen, Hk.
      * apply NoDup_singleton.
    + intros k. rewrite map_app, elem_of_app, elem_of_union, elem_of_singleton.
      simpl. rewrite list_elem_of_singleton, Hseen. tauto.
  - rewrite add_row_duplicate by (apply dec_stable; exact Hold). split; assumption.
Qed.

Lemma dedup_inv_walk (root : Element) : dedup_inv (walk root).
Proof.
  apply walk_closed.
  - intros m st H. exact H.
  - intros st H. exact H.
  - apply dedup_inv_add_row.
  - apply dedup_inv_initial.
Qed.

Lemma add_row_rows_prefix (row : Row) (st : State) :
  rows st `prefix_of` rows (add_row row st).
Proof.
  unfold add_row. destruct (decide (row_key row ∉ seen st)); simpl.
  - exists [row]. reflexivity.
  - reflexivity.
Qed.

Lemma recurse_rows_prefix (folder : Element) (path : list string) (st : State) :
  rows st `prefix_of` rows (recurse folder path st).
Proof.
  apply (recurse_closed (fun st' => rows st `prefix_of` rows st')).
  - intros m st' H. exact H.
  - intros st' H. exact H.
  - intros row st' H. etransitivity; [exact H|apply add_row_rows_prefix].
  - reflexivity.
Qed.

(** C1. For every document the accepted rows hold at most one row per
    identity key [(row[4], row[5])] and [seen] holds exactly the accepted
    keys; [add_row] appends a row with a new key and registers the key; it
    drops a row with a seen key, leaving rows and keys as they are and
    appending one diagnostic line that cites both key components; and the
    rows accepted before a submission, or before the walk of a folder, stay
    in place as a prefix of the rows after it. *)
Theorem C1_one_record_per_identity_key :
  (forall root : Element,
      NoDup (map row_key (fst (process_xml root))) /\
      (forall k : Key, k ∈ seen (walk root) <-> k ∈ map row_key (fst (process_xml root)))) /\
  (forall (row : Row) (st : State),
      (col_guid row, col_comment_id row) ∉ seen st ->
      add_row row st
      = mkState (rows st ++ [row]) ({[(col_guid row, col_comment_id row)]} ∪ seen st)
          (view_counter st) (debug_lines st)) /\
  (forall (row : Row) (st : State),
      (col_guid row, col_comment_id row) ∈ seen st ->
      add_row row st
      = mkState (rows st) (seen st) (view_counter st)
          (debug_lines st ++
             ["⚠️ Duplicate skipped: GUID=" +:+ fmt (col_guid row) +:+
              ", CommentID=" +:+ fmt (col_comment_id row)])) /\
  (forall (row : Row) (st : State), rows st `prefix_of` rows (add_row row st)) /\
  (forall (folder : Element) (path : list string) (st : State),
      rows st `prefix_of` rows (recurse folder path st)).
Proof.
  split; [|split; [|split; [|split]]].
  - intros root. exact (dedup_inv_walk root).
  - intros row st H. apply add_row_new. exact H.
  - intros row st H. apply add_row_duplicate. exact H.
  - apply add_row_rows_prefix.
  - apply recurse_rows_prefix.
Qed.

(** The theorem at a second submission of the key (G1, C1). *)
Lemma C1_one_record_per_identity_key_witness :
  let row := mkRow (Some "A") None None (Some "V1") (Some "G1") (Some "C1")
               (Some "Active") None None None (Some "navisworks_views_comments_vp0001.jpg") in
  let st := mkState [row] {[(Some "G1", Some "C1")]} 1 [] in
  add_row row st
  = mkState [row] {[(Some "G1", Some "C1")]} 1
      ["⚠️ Duplicate skipped: GUID=G1, CommentID=C1"].
Proof.
  intros row st.
  apply (proj1 (proj2 (proj2 C1_one_record_per_identity_key)) row st).
  subst row st. simpl. set_solver.
Defined.

(** ** The views of a tree, in the order the walk discovers them *)

Lemma below_flat_map {B : Type} (f : Element -> list B) (cs : list Element) :
  (fix below (cs : list Element) : list B :=
     match cs with
     | [] => []
     | child :: cs' =>
         if has_tag "viewfolder" child then f child ++ below cs' else below cs'
     end) cs
  = flat_map f (List.filter (has_tag "viewfolder") cs).
Proof.
  induction cs as [|c cs IHcs]; simpl; [reflexivity|].
  destruct (has_tag "viewfolder" c); simpl; rewrite IHcs; reflexivity.
Qed.

Lemma below_sum (f : Element -> nat) (cs : list Element) :
  (fix below (cs : list Element) : nat :=
     match cs with
     | [] => 0
     | child :: cs' =>
         if has_tag "viewfolder" child then f child + below cs' else below cs'
     end) cs
  = list_sum (map f (List.filter (has_tag "viewfolder") cs)).
Proof.
  induction cs as [|c cs IHcs]; simpl; [reflexivity|].
  destruct (has_tag "viewfolder" c); simpl; rewrite IHcs; reflexivity.
Qed.

Lemma views_of_unfold (folder : Element) (path : list string) :
  views_of folder path
  = map (pair (new_path_of folder path)) (findall "view" folder) ++
    flat_map (fun child => views_of child (new_path_of folder path))
      (findall "viewfolder" folder).
Proof.
  destruct folder as [t a x l cs]. unfold findall at 2. simpl.
  rewrite below_flat_map. reflexivity.
Qed.

Lemma count_views_unfold (folder : Element) :
  count_views folder
  = length (findall "view" folder) + list_sum (map count_views (findall "viewfolder" folder)).
Proof.
  destruct folder as [t a x l cs]. unfold findall at 2. simpl.
  rewrite below_sum. reflexivity.
Qed.

Lemma length_flat_map_sum {A B : Type} (f : A -> list B) (g : A -> nat) (l : list A) :
  Forall (fun x => length (f x) = g x) l ->
  length (flat_map f l) = list_sum (map g l).
Proof.
  induction 1 as [|x l Hx _ IH]; simpl; [reflexivity|].
  rewrite length_app, Hx, IH. reflexivity.
Qed.

Lemma length_views_of (folder : Element) :
  forall path, length (views_of folder path) = count_views folder.
Proof.
  induction folder as [t a x l cs IHcs] using Element_nested_ind.
  intros path. rewrite views_of_unfold, count_views_unfold.
  rewrite length_app, length_map. f_equal.
  apply length_flat_map_sum, Forall_findall. simpl.
  eapply List.Forall_impl; [|exact IHcs]. simpl. intros c Hc. apply Hc.
Qed.

Lemma length_discovered_views (root : Element) :
  length (discovered_views root) = count_document_views root.
Proof.
  unfold discovered_views, count_document_views.
  apply length_flat_map_sum, List.Forall_forall. intros vf _. apply length_views_of.
Qed.

(** Every discovered view carries a path that ends in its folder's name, so
    the path is never empty. *)
Lemma views_of_path_nonempty (folder : Element) :
  forall path, Forall (fun pv => fst pv <> []) (views_of folder path).
Proof.
  induction folder as [t a x l cs IHcs] using Element_nested_ind.
  intros path. rewrite views_of_unfold. apply Forall_app. split.
  - apply List.Forall_forall. intros pv Hpv. apply in_map_iff in Hpv.
    destruct Hpv as [v [<- _]]. simpl. unfold new_path_of.
    intros Heq. apply app_eq_nil in Heq. destruct Heq as [_ Heq]. discriminate.
  - apply List.Forall_forall. intros pv Hpv. apply in_flat_map in Hpv.
    destruct Hpv as [c [Hc Hpv]].
    apply List.filter_In in Hc. destruct Hc as [Hc _].
    rewrite List.Forall_forall in IHcs. specialize (IHcs c Hc (new_path_of
      (mkElement t a x l cs) path)).
    rewrite List.Forall_forall in IHcs. apply IHcs, Hpv.
Qed.

(** ** Diagnostic lines by kind *)

Lemma prefix_append (s t : string) : String.prefix s (s +:+ t) = true.
Proof.
  induction s as [|c s IHs]; simpl.
  - destruct t; reflexivity.
  - destruct (ascii_dec c c) as [_|Hne]; [exact IHs|contradiction].
Qed.

Lemma is_view_line_view vn g im : is_view_line (view_line vn g im) = true.
Proof. unfold is_view_line, view_line. apply prefix_append. Qed.

Lemma is_view_line_folder p : is_view_line (folder_line p) = false.
Proof. reflexivity. Qed.

Lemma is_view_line_comment cid status user :
  is_view_line (comment_line cid status user) = false.
Proof. reflexivity. Qed.

Lemma is_view_line_no_comments vn : is_view_line (no_comments_line vn) = false.
Proof. reflexivity. Qed.

Lemma is_view_line_duplicate row : is_view_line (duplicate_line row) = false.
Proof. reflexivity. Qed.

Lemma is_view_line_failure e created : is_view_line (failure_line e created) = false.
Proof. reflexivity. Qed.

Lemma view_lines_from_app (c : nat) (vs1 vs2 : list Element) :
  view_lines_from c (vs1 ++ vs2)
  = view_lines_from c vs1 ++ view_lines_from (c + length vs1) vs2.
Proof.
  revert c. induction vs1 as [|v vs1 IH]; intros c; simpl.
  - rewrite Nat.add_0_r. reflexivity.
  - rewrite IH. simpl. rewrite Nat.add_succ_r. reflexivity.
Qed.

Lemma view_lines_from_lookup (c : nat) (vs : list Element) (i : nat) (v : Element) :
  vs !! i = Some v ->
  view_lines_from c vs !! i
  = Some (view_line (attrib_get v "name" "") (attrib_get v "guid" "")
            (image_file_name IMAGE_FILE_PREFIX (c + 1 + i))).
Proof.
  revert c i. induction vs as [|w vs IH]; intros c i H; [discriminate|].
  destruct i as [|i]; simpl in *.
  - inversion H; subst. rewrite Nat.add_0_r, Nat.add_1_r. reflexivity.
  - rewrite (IH (S c) i H). do 3 f_equal. lia.
Qed.

Lemma length_view_lines_from (c : nat) (vs : list Element) :
  length (view_lines_from c vs) = length vs.
Proof. revert c. induction vs as [|v vs IH]; intros c; simpl; [|rewrite IH]; reflexivity. Qed.

(** ** What the walk does to the shared objects *)

Lemma quiet_refl Q st : quiet_effect Q st st.
Proof.
  repeat split. exists []. split; [symmetry; apply app_nil_r|constructor].
Qed.

Lemma quiet_trans Q st1 st2 st3 :
  quiet_effect Q st1 st2 -> quiet_effect Q st2 st3 -> quiet_effect Q st1 st3.
Proof.
  intros (Hc1 & Hl1 & n1 & Hr1 & Hq1) (Hc2 & Hl2 & n2 & Hr2 & Hq2).
  split; [congruence|]. split; [congruence|].
  exists (n1 ++ n2). split.
  - rewrite Hr2, Hr1, app_assoc. reflexivity.
  - apply Forall_app. split; assumption.
Qed.

Lemma quiet_log Q m st : is_view_line m = false -> quiet_effect Q st (log m st).
Proof.
  intros Hm. split; [reflexivity|]. split.
  - simpl. unfold view_lines. rewrite List.filter_app. simpl. rewrite Hm.
    apply app_nil_r.
  - exists []. split; [symmetry; apply app_nil_r|constructor].
Qed.

Lemma quiet_add_row (Q : Row -> Prop) row st : Q row -> quiet_effect Q st (add_row row st).
Proof.
  intros Hq. unfold add_row. destruct (decide (row_key row ∉ seen st)).
  - split; [reflexivity|]. split; [reflexivity|].
    exists [row]. split; [reflexivity|]. constructor; [exact Hq|constructor].
  - apply quiet_log. apply is_view_line_duplicate.
Qed.

Lemma quiet_parse_createddate Q created st :
  quiet_effect Q st (snd (parse_createddate created st)).
Proof.
  unfold parse_createddate. destruct (parse_createddate_try created); simpl.
  - apply quiet_log, is_view_line_failure.
  - apply quiet_refl.
Qed.

Lemma quiet_fold {A : Type} Q (f : State -> A -> State) (l : list A) :
  (forall st x, quiet_effect Q st (f st x)) ->
  forall st, quiet_effect Q st (fold_left f l st).
Proof.
  intros Hf. induction l as [|x l IH]; intros st; simpl.
  - apply quiet_refl.
  - eapply quiet_trans; [apply Hf|apply IH].
Qed.

Lemma quiet_comment_step (Q : Row -> Prop) p vn g im st c :
  (forall cid status user body created,
      Q (mkRow (path_category p) (path_level p) (path_subfolder p)
           (Some vn) (Some g) (Some cid) (Some status) user body created (Some im))) ->
  quiet_effect Q st (comment_step p vn g im st c).
Proof.
  intros HQ. unfold comment_step.
  assert (Hd : quiet_effect Q st
                 (snd (match find "createddate" c with
                       | Some _ => parse_createddate (find "createddate" c) st
                       | None => (None, st)
                       end))).
  { destruct (find "createddate" c); [apply quiet_parse_createddate|apply quiet_refl]. }
  destruct (match find "createddate" c with
            | Some _ => parse_createddate (find "createddate" c) st
            | None => (None, st)
            end) as [r st1]. simpl in Hd.
  eapply quiet_trans; [exact Hd|].
  eapply quiet_trans; [apply quiet_log, is_view_line_comment|].
  apply quiet_add_row, HQ.
Qed.

Lemma walk_effect_quiet st st' :
  quiet_effect (fun _ => False) st st' -> walk_effect [] st st'.
Proof.
  intros (Hc & Hl & new & Hr & Hq). split; [simpl; lia|]. split.
  - simpl. rewrite app_nil_r. exact Hl.
  - exists new. split; [exact Hr|].
    eapply List.Forall_impl; [|exact Hq]. simpl. intros r [].
Qed.

Lemma walk_effect_app vs1 vs2 st1 st2 st3 :
  walk_effect vs1 st1 st2 -> walk_effect vs2 st2 st3 -> walk_effect (vs1 ++ vs2) st1 st3.
Proof.
  intros (Hc1 & Hl1 & n1 & Hr1 & Hq1) (Hc2 & Hl2 & n2 & Hr2 & Hq2).
  split; [rewrite length_app; lia|]. split.
  - rewrite Hl2, Hl1, map_app, view_lines_from_app, length_map, Hc1, app_assoc.
    reflexivity.
  - exists (n1 ++ n2). split; [rewrite Hr2, Hr1, app_assoc; reflexivity|].
    apply Forall_app. split.
    + eapply List.Forall_impl; [|exact Hq1]. simpl.
      intros r (i & p & v & Hi & Hrow). exists i, p, v. split; [|exact Hrow].
      apply lookup_app_l_Some. exact Hi.
    + eapply List.Forall_impl; [|exact Hq2]. simpl.
      intros r (i & p & v & Hi & Hrow). exists (length vs1 + i), p, v. split.
      * rewrite lookup_app_r by lia.
        replace (length vs1 + i - length vs1) with i by lia. exact Hi.
      * replace (view_counter st1 + 1 + (length vs1 + i))
          with (view_counter st2 + 1 + i) by lia.
        exact Hrow.
Qed.

Lemma walk_effect_view_step p st v : walk_effect [(p, v)] st (view_step p st v).
Proof.
  unfold view_step.
  set (vn := attrib_get v "name" "").
  set (g := attrib_get v "guid" "").
  set (im := image_file_name IMAGE_FILE_PREFIX (view_counter (bump_counter st))).
  set (st1 := log (view_line vn g im) (bump_counter st)).
  assert (Hq : quiet_effect (row_of_view p v (S (view_counter st))) st1
                 match find "comments" v with
                 | Some comments =>
                     fold_left (comment_step p vn g im) (findall "comment" comments) st1
                 | None =>
                     add_row
                       (mkRow (path_category p) (path_level p) (path_subfolder p)
                          (Some vn) (Some g) None None None None None (Some im))
                       (log (no_comments_line vn) st1)
                 end).
  { destruct (find "comments" v) as [cs|].
    - apply quiet_fold. intros st' c. apply quiet_comment_step.
      intros cid status user body created. unfold row_of_view. simpl.
      repeat (split; [reflexivity|]). right. exists cid, status. split; reflexivity.
    - eapply quiet_trans; [apply quiet_log, is_view_line_no_comments|].
      apply quiet_add_row. unfold row_of_view. simpl.
      repeat (split; [reflexivity|]). left. repeat split. }
  destruct Hq as (Hc & Hl & new & Hr & Hnew).
  split; [rewrite Hc; simpl; lia|]. split.
  - rewrite Hl. subst st1. simpl. unfold view_lines. rewrite List.filter_app. simpl.
    rewrite is_view_line_view. reflexivity.
  - exists new. split; [rewrite Hr; reflexivity|].
    eapply List.Forall_impl; [|exact Hnew]. simpl.
    intros r Hrow. exists 0, p, v. split; [reflexivity|].
    replace (view_counter st + 1 + 0) with (S (view_counter st)) by lia. exact Hrow.
Qed.

Lemma walk_effect_fold {A : Type} (f : State -> A -> State)
    (vs : A -> list (list string * Element)) (l : list A) :
  Forall (fun x => forall st, walk_effect (vs x) st (f st x)) l ->
  forall st, walk_effect (flat_map vs l) st (fold_left f l st).
Proof.
  induction 1 as [|x l Hx _ IH]; intros st; simpl.
  - apply walk_effect_quiet, quiet_refl.
  - eapply walk_effect_app; [apply Hx|apply IH].
Qed.

Lemma flat_map_singleton {A B : Type} (f : A -> B) (l : list A) :
  flat_map (fun x => [f x]) l = map f l.
Proof. induction l as [|x l IH]; simpl; [|rewrite IH]; reflexivity. Qed.

Lemma walk_effect_recurse (folder : Element) :
  forall path st, walk_effect (views_of folder path) st (recurse folder path st).
Proof.
  induction folder as [t a x l cs IHcs] using Element_nested_ind.
  intros path st. rewrite recurse_unfold, views_of_unfold.
  set (folder := mkElement t a x l cs). set (np := new_path_of folder path).
  change (map (pair np) (findall "view" folder) ++
          flat_map (fun child => views_of child np) (findall "viewfolder" folder))
    with ([] ++ (map (pair np) (findall "view" folder) ++
          flat_map (fun child => views_of child np) (findall "viewfolder" folder))).
  eapply walk_effect_app.
  { apply walk_effect_quiet, quiet_log, is_view_line_folder. }
  eapply walk_effect_app.
  - rewrite <- flat_map_singleton. apply walk_effect_fold.
    apply List.Forall_forall. intros v _ st'. apply walk_effect_view_step.
  - apply (walk_effect_fold (fun st child => recurse child np st)
             (fun child => views_of child np)).
    apply Forall_findall. simpl.
    eapply List.Forall_impl; [|exact IHcs]. simpl. intros c Hc st'. apply Hc.
Qed.

Lemma walk_effect_walk (root : Element) :
  walk_effect (discovered_views root) initial_state (walk root).
Proof.
  unfold walk, discovered_views.
  apply (walk_effect_fold (fun st vf => recurse vf [] st) (fun vf => views_of vf [])).
  apply List.Forall_forall. intros vf _ st. apply walk_effect_recurse.
Qed.

(** ** Strings: appending, padding, reading the digits back *)

Lemma append_cons (c : ascii) (s t : string) : String c s +:+ t = String c (s +:+ t).
Proof. reflexivity. Qed.

Lemma append_nil_r (s : string) : s +:+ "" = s.
Proof.
  induction s as [|c s IHs]; [reflexivity|].
  rewrite append_cons, IHs. reflexivity.
Qed.

Lemma length_append (s t : string) :
  String.length (s +:+ t) = String.length s + String.length t.
Proof.
  induction s as [|c s IHs]; [reflexivity|].
  rewrite append_cons. simpl. rewrite IHs. reflexivity.
Qed.

Lemma length_string_repeat (c : ascii) (n : nat) : String.length (string_repeat c n) = n.
Proof. induction n as [|n IHn]; simpl; [|rewrite IHn]; reflexivity. Qed.

(** On the decimal rendering of a natural number [zfill] only ever adds
    zeros in front: the rendering starts with no sign. *)
Lemma zfill_str_nat (width n : nat) :
  zfill width (str_nat n)
  = string_repeat "0" (width - String.length (str_nat n)) +:+ str_nat n.
Proof.
  unfold zfill, str_nat.
  destruct (Nat.leb_spec width (String.length (NilEmpty.string_of_uint (Nat.to_uint n))))
    as [Hle|Hlt].
  - replace (width - _) with 0 by lia. reflexivity.
  - destruct (Nat.to_uint n); simpl; try reflexivity.
    symmetry. apply append_nil_r.
Qed.

Lemma length_zfill_str_nat (width n : nat) :
  String.length (zfill width (str_nat n)) = Nat.max width (String.length (str_nat n)).
Proof.
  rewrite zfill_str_nat, length_append, length_string_repeat. lia.
Qed.

Lemma append_assoc (s t u : string) : (s +:+ t) +:+ u = s +:+ (t +:+ u).
Proof.
  induction s as [|c s IHs]; [reflexivity|].
  rewrite !append_cons, IHs. reflexivity.
Qed.

Lemma append_inj_l (p s t : string) : p +:+ s = p +:+ t -> s = t.
Proof.
  induction p as [|c p IHp]; intros H; [exact H|].
  rewrite !append_cons in H. inversion H. auto.
Qed.

Lemma digits_value_uint (d : Decimal.uint) (acc : nat) (rest : string) :
  digits_value acc (NilEmpty.string_of_uint d +:+ rest)
  = digits_value (Nat.of_uint_acc d acc) rest.
Proof.
  revert acc. induction d as [|d IH|d IH|d IH|d IH|d IH|d IH|d IH|d IH|d IH|d IH];
    intros acc; [reflexivity|..];
    cbn [NilEmpty.string_of_uint Nat.of_uint_acc]; rewrite append_cons;
    cbn [digits_value]; rewrite Nat.tail_mul_spec;
    match goal with
    | |- context [digit_of ?c] =>
        let v := eval vm_compute in (digit_of c) in
        change (digit_of c) with v
    end;
    cbv beta iota; rewrite IH;
    apply (f_equal (fun a => digits_value (Nat.of_uint_acc d a) rest)); lia.
Qed.

Lemma digits_value_zeros (k : nat) (s : string) :
  digits_value 0 (string_repeat "0" k +:+ s) = digits_value 0 s.
Proof.
  induction k as [|k IH]; [reflexivity|].
  cbn [string_repeat]. rewrite append_cons. exact IH.
Qed.

Lemma digits_value_image_file (n : nat) :
  digits_value 0 (zfill 4 (str_nat n) +:+ ".jpg") = n.
Proof.
  rewrite zfill_str_nat, append_assoc, digits_value_zeros.
  unfold str_nat. rewrite digits_value_uint.
  change (digits_value (Nat.of_uint_acc (Nat.to_uint n) 0) ".jpg")
    with (Nat.of_uint (Nat.to_uint n)).
  apply DecimalNat.Unsigned.of_to.
Qed.

Lemma image_file_name_inj (prefix : string) (n m : nat) :
  image_file_name prefix n = image_file_name prefix m -> n = m.
Proof.
  unfold image_file_name. intros H. apply append_inj_l in H.
  rewrite <- (digits_value_image_file n), <- (digits_value_image_file m), H.
  reflexivity.
Qed.

(** ** Sequence numbers *)

Lemma view_step_counter p st v : view_counter (view_step p st v) = S (view_counter st).
Proof.
  destruct (walk_effect_view_step p st v) as (Hc & _). rewrite Hc. simpl. lia.
Qed.

Lemma recurse_counter folder path st :
  view_counter (recurse folder path st) = view_counter st + count_views folder.
Proof.
  destruct (walk_effect_recurse folder path st) as (Hc & _).
  rewrite Hc, length_views_of. reflexivity.
Qed.

(** C2. The counter is incremented exactly once by the body of the view
    loop, whatever the view holds; the walk of a folder adds to it the
    number of view nodes of the folder's subtree, at any depth; after the
    whole walk it equals the number of view nodes of the document, which is
    also the number of view-discovery lines; and the i-th discovered view
    (from 0) is announced with number i + 1, so no number serves twice;
    and different numbers give different image references. *)
Theorem C2_one_sequence_number_per_view :
  (forall (new_path : list string) (st : State) (view : Element),
      view_counter (view_step new_path st view) = S (view_counter st)) /\
  (forall (folder : Element) (path : list string) (st : State),
      view_counter (recurse folder path st) = view_counter st + count_views folder) /\
  (forall root : Element,
      view_counter (walk root) = count_document_views root /\
      length (view_lines (snd (process_xml root))) = count_document_views root /\
      length (discovered_views root) = count_document_views root /\
      forall (i : nat) (p : list string) (v : Element),
        discovered_views root !! i = Some (p, v) ->
        view_lines (snd (process_xml root)) !! i
        = Some (view_line (attrib_get v "name" "") (attrib_get v "guid" "")
                  (image_file_name IMAGE_FILE_PREFIX (i + 1)))) /\
  (forall n m : nat,
      image_file_name IMAGE_FILE_PREFIX n = image_file_name IMAGE_FILE_PREFIX m -> n = m).
Proof.
  split; [exact view_step_counter|]. split; [exact recurse_counter|].
  split; [|apply image_file_name_inj].
  intros root. destruct (walk_effect_walk root) as (Hc & Hl & _).
  simpl in Hc, Hl. unfold process_xml. simpl.
  split; [rewrite Hc; apply length_discovered_views|]. split; [|split].
  - rewrite Hl, length_view_lines_from, length_map. apply length_discovered_views.
  - apply length_discovered_views.
  - intros i p v Hi. rewrite Hl.
    rewrite (view_lines_from_lookup 0 _ i v).
    + do 3 f_equal. lia.
    + rewrite list_lookup_fmap, Hi. reflexivity.
Qed.

(** The theorem at the first view of the sample document. *)
Lemma C2_one_sequence_number_per_view_witness :
  view_lines (snd (process_xml sample_document)) !! 0
  = Some "  👀 Found view: V1 (GUID=G1) → navisworks_views_comments_vp0001.jpg".
Proof.
  apply (proj2 (proj2 (proj2
           (proj1 (proj2 (proj2 C2_one_sequence_number_per_view)) sample_document)))
           0 ["A"]
           (mkElement "view" [("name", "V1"); ("guid", "G1")] None None
              [mkElement "comments" [] None None
                 [comment_element "C1"; comment_element "C2"; comment_element "C1"]])).
  reflexivity.
Defined.

(** ** Image references *)

(** The reference of the seventh view does not end in ["0007"]: the
    extension follows the digits. *)
Lemma C3_reference_does_not_end_in_digits :
  exists (r : Row) (ref : string),
    fst (process_xml seven_views_document) !! 6 = Some r /\
    col_view_name r = Some "V7" /\
    col_image_path r = Some ref /\
    ref = "navisworks_views_comments_vp0007.jpg" /\
    endswith ref (zfill 4 (str_nat 7)) = false /\
    endswith ref "0007" = false.
Proof.
  eexists. eexists. vm_compute. repeat split.
Qed.

(** C3 (amended). The view discovered as number [N] (from 1, in the order
    of the walk) is announced with the reference made of the prefix
    ["navisworks_views_comments_vp"], the decimal rendering of [N] padded
    with zeros on the left to at least four digits and never truncated, and
    the extension [".jpg"]; every accepted row carries the reference of the
    view it was built for; number 7 gives the digits ["0007"] and number
    12345 the digits ["12345"]. *)
Theorem C3_image_reference :
  (forall (root : Element) (N : nat) (p : list string) (v : Element),
      1 <= N ->
      discovered_views root !! (N - 1) = Some (p, v) ->
      view_lines (snd (process_xml root)) !! (N - 1)
      = Some (view_line (attrib_get v "name" "") (attrib_get v "guid" "")
                ("navisworks_views_comments_vp" +:+ zfill 4 (str_nat N) +:+ ".jpg"))) /\
  (forall (root : Element) (r : Row),
      r ∈ fst (process_xml root) ->
      exists (N : nat) (p : list string) (v : Element),
        1 <= N /\
        discovered_views root !! (N - 1) = Some (p, v) /\
        col_view_name r = Some (attrib_get v "name" "") /\
        col_guid r = Some (attrib_get v "guid" "") /\
        col_image_path r
        = Some ("navisworks_views_comments_vp" +:+ zfill 4 (str_nat N) +:+ ".jpg")) /\
  (forall N : nat,
      zfill 4 (str_nat N) = string_repeat "0" (4 - String.length (str_nat N)) +:+ str_nat N /\
      String.length (zfill 4 (str_nat N)) = Nat.max 4 (String.length (str_nat N))) /\
  image_file_name IMAGE_FILE_PREFIX 7 = "navisworks_views_comments_vp0007.jpg" /\
  image_file_name IMAGE_FILE_PREFIX 12345 = "navisworks_views_comments_vp12345.jpg".
Proof.
  split; [|split; [|split; [|split]]].
  - intros root N p v HN Hv.
    destruct (walk_effect_walk root) as (_ & Hl & _). simpl in Hl.
    unfold process_xml. simpl. rewrite Hl.
    rewrite (view_lines_from_lookup 0 _ (N - 1) v).
    + replace (0 + 1 + (N - 1)) with N by lia. reflexivity.
    + rewrite list_lookup_fmap, Hv. reflexivity.
  - intros root r Hr.
    destruct (walk_effect_walk root) as (_ & _ & new & Hrows & Hnew).
    unfold process_xml in Hr. simpl in Hr, Hrows. rewrite Hrows in Hr.
    rewrite List.Forall_forall in Hnew. apply list_elem_of_In in Hr.
    destruct (Hnew r Hr) as (i & p & v & Hi & Hrow).
    destruct Hrow as (_ & _ & _ & Hname & Hguid & Himg & _).
    exists (i + 1), p, v. replace (i + 1 - 1) with i by lia.
    replace (view_counter initial_state + 1 + i) with (i + 1) in Himg by (simpl; lia).
    repeat split; [lia|assumption..].
  - intros N. split; [apply zfill_str_nat|apply length_zfill_str_nat].
  - reflexivity.
  - vm_compute. reflexivity.
Qed.

(** The theorem at the seventh view of the document with seven views. *)
Lemma C3_image_reference_witness :
  view_lines (snd (process_xml seven_views_document)) !! 6
  = Some "  👀 Found view: V7 (GUID=G7) → navisworks_views_comments_vp0007.jpg".
Proof.
  apply (proj1 C3_image_reference seven_views_document 7 ["A"] (no_comment_view "V7" "G7")).
  - lia.
  - reflexivity.
Defined.

(** ** The date normalizer *)

Lemma days_in_month_bound (y m : Z) : (28 <= days_in_month y m <= 31)%Z.
Proof.
  unfold days_in_month.
  destruct (m =? 2)%Z; [destruct (is_leap y); lia|].
  destruct ((m =? 4) || (m =? 6) || (m =? 9) || (m =? 11))%Z%bool; lia.
Qed.

Lemma datetime_new_valid (y m d : Z) :
  valid_date y m d -> datetime_new y m d = ok (mkDatetime y m d).
Proof.
  intros (Hy & Hm & Hd). pose proof (days_in_month_bound y m) as Hb.
  unfold datetime_new, fits_c_int.
  repeat match goal with
         | |- context [(?a <=? ?b)%Z] => destruct (Z.leb_spec a b); try lia
         | |- context [(?a <? ?b)%Z] => destruct (Z.ltb_spec a b); try lia
         end.
  reflexivity.
Qed.

Lemma datetime_new_invalid (y m d : Z) :
  ~ valid_date y m d -> exists e, datetime_new y m d = raise e.
Proof.
  intros Hn. unfold datetime_new.
  destruct (negb _); [eexists; reflexivity|].
  destruct (Z.ltb_spec y 1); [eexists; reflexivity|].
  destruct (Z.ltb_spec 9999 y); [eexists; reflexivity|].
  destruct (Z.ltb_spec m 1); [eexists; reflexivity|].
  destruct (Z.ltb_spec 12 m); [eexists; reflexivity|].
  destruct (Z.ltb_spec d 1); [eexists; reflexivity|].
  destruct (Z.ltb_spec (days_in_month y m) d); [eexists; reflexivity|].
  exfalso. apply Hn. unfold valid_date. lia.
Qed.

Lemma int_attr_absent (dn : Element) (key : string) :
  dict_get key (attrib dn) = None -> int_attr dn key = ok 0%Z.
Proof. intros H. unfold int_attr. rewrite H. reflexivity. Qed.

Lemma int_attr_non_numeric (dn : Element) (key v : string) :
  dict_get key (attrib dn) = Some v -> int_literal v = None ->
  int_attr dn key
  = raise (ValueError ("invalid literal for int() with base 10: " +:+ py_repr v)).
Proof. intros H Hv. unfold int_attr, py_int. rewrite H, Hv. reflexivity. Qed.

(** The [try] block on a descriptor whose three fields were read. *)
Lemma try_fields_read (created dn : Element) (y m d : Z) :
  find "date" created = Some dn ->
  int_attr dn "year" = ok y -> int_attr dn "month" = ok m -> int_attr dn "day" = ok d ->
  parse_createddate_try (Some created)
  = if ((y <? 1900) || (m =? 0) || (d =? 0))%Z%bool
    then ok None
    else bind (datetime_new y m d) (fun dt => ok (Some (strftime_ymd dt))).
Proof.
  intros Hdn Hy Hm Hd. unfold parse_createddate_try. rewrite Hdn, Hy, Hm, Hd.
  reflexivity.
Qed.

(** Whatever the descriptor, a failure of the [try] block is caught: the
    function returns [None] and appends the failure line. *)
Lemma parse_createddate_caught (created : option Element) (st : State) (e : exn) :
  parse_createddate_try created = raise e ->
  parse_createddate created st = (None, log (failure_line e created) st).
Proof. intros H. unfold parse_createddate. rewrite H. reflexivity. Qed.

Lemma parse_createddate_returned (created : option Element) (st : State) (r : option string) :
  parse_createddate_try created = ok r ->
  parse_createddate created st = (r, st).
Proof. intros H. unfold parse_createddate. rewrite H. reflexivity. Qed.

(** The result is [None] as soon as the year read is below 1900, or the
    month or the day read is 0, whatever the other fields hold. *)
Lemma parse_createddate_none (created dn : Element) (st : State) :
  find "date" created = Some dn ->
  (exists y, int_attr dn "year" = ok y /\ (y < 1900)%Z) \/
  int_attr dn "month" = ok 0%Z \/ int_attr dn "day" = ok 0%Z ->
  fst (parse_createddate (Some created) st) = None.
Proof.
  intros Hdn Hcase. unfold parse_createddate.
  destruct (parse_createddate_try (Some created)) as [e|r] eqn:Htry; [reflexivity|].
  simpl. unfold parse_createddate_try in Htry. rewrite Hdn in Htry.
  destruct (int_attr dn "year") as [ey|y]; [discriminate|].
  destruct (int_attr dn "month") as [em|m]; [discriminate|].
  destruct (int_attr dn "day") as [ed|d]; [discriminate|].
  simpl in Htry.
  assert (Hc : ((y <? 1900) || (m =? 0) || (d =? 0))%Z%bool = true).
  { destruct Hcase as [(y' & Hy & Hlt)|[Hm|Hd]].
    - inversion Hy; subst. apply (proj2 (Z.ltb_lt _ _)) in Hlt. rewrite Hlt. reflexivity.
    - inversion Hm; subst. rewrite orb_true_r. reflexivity.
    - inversion Hd; subst. rewrite orb_true_r. reflexivity. }
  rewrite Hc in Htry. inversion Htry. reflexivity.
Qed.




(** ** Conversion failures *)

Lemma int_attr_cases (dn : Element) (key : string) :
  (exists z, int_attr dn key = ok z) \/ (exists e, int_attr dn key = raise e).
Proof. destruct (int_attr dn key) as [e|z]; [right|left]; eexists; reflexivity. Qed.

Lemma try_raises (created dn : Element) :
  find "date" created = Some dn ->
  non_numeric_field dn \/ impossible_date dn ->
  exists e, parse_createddate_try (Some created) = raise e.
Proof.
  intros Hdn [(key & v & Hkey & Hget & Hlit)|(y & m & d & Hy & Hm & Hd & H1900 & Hm0 & Hd0 & Hinv)].
  - pose proof (int_attr_non_numeric dn key v Hget Hlit) as Hraise.
    unfold parse_createddate_try. rewrite Hdn.
    destruct Hkey as [-> | [-> | ->]].
    + rewrite Hraise. eexists. reflexivity.
    + destruct (int_attr dn "year") as [e|y]; [eexists; reflexivity|].
      rewrite Hraise. eexists. reflexivity.
    + destruct (int_attr dn "year") as [e|y]; [eexists; reflexivity|].
      destruct (int_attr dn "month") as [e|m]; [eexists; reflexivity|].
      rewrite Hraise. eexists. reflexivity.
  - rewrite (try_fields_read created dn y m d Hdn Hy Hm Hd).
    destruct (Z.ltb_spec y 1900); [lia|].
    destruct (Z.eqb_spec m 0); [contradiction|].
    destruct (Z.eqb_spec d 0); [contradiction|].
    simpl. destruct (datetime_new_invalid y m d Hinv) as (e & He).
    exists e. rewrite He. reflexivity.
Qed.



(** ** Views without comments *)

Lemma view_step_no_container (new_path : list string) (st : State) (view : Element) :
  find "comments" view = None ->
  view_step new_path st view
  = add_row (no_comment_row new_path view (S (view_counter st)))
      (log (no_comments_line (attrib_get view "name" ""))
         (log (found_line view (S (view_counter st))) (bump_counter st))).
Proof. intros H. unfold view_step. rewrite H. reflexivity. Qed.

(** Of two views without comments that share an identifier only the first
    gets a row; the second is dropped as a duplicate. *)
Lemma C6_second_view_without_comments_is_dropped :
  map snd (discovered_views two_unidentified_views_document)
  = [mkElement "view" [("name", "V1")] None None [];
     mkElement "view" [("name", "V2")] None None []] /\
  map col_view_name (fst (process_xml two_unidentified_views_document)) = [Some "V1"] /\
  snd (process_xml two_unidentified_views_document)
  = ["📂 Entering folder: A";
     "  👀 Found view: V1 (GUID=) → navisworks_views_comments_vp0001.jpg";
     "    ⚠️ No comments found for V1";
     "  👀 Found view: V2 (GUID=) → navisworks_views_comments_vp0002.jpg";
     "    ⚠️ No comments found for V2";
     "⚠️ Duplicate skipped: GUID=, CommentID=None"].
Proof. vm_compute. repeat split. Qed.

(** C6 (amended). For a view that has no [comments] element the walk
    appends the view-discovery line and exactly one "no comments" line and
    submits exactly one row, whose comment id, status, user, body and
    created date are all [None].  The row is accepted when its key
    (identifier, [None]) is new; when an earlier row holds that key, as for
    a second such view with the same identifier, it is dropped with a
    duplicate line. *)
Theorem C6_view_without_comments
    (new_path : list string) (st : State) (view : Element) :
  find "comments" view = None ->
  let k := S (view_counter st) in
  let row := no_comment_row new_path view k in
  let key : Key := (Some (attrib_get view "guid" ""), None) in
  col_comment_id row = None /\ col_status row = None /\ col_user row = None /\
  col_body row = None /\ col_created_date row = None /\
  (key ∉ seen st ->
   view_step new_path st view
   = mkState (rows st ++ [row]) ({[key]} ∪ seen st) k
       (debug_lines st ++
          [found_line view k; no_comments_line (attrib_get view "name" "")])) /\
  (key ∈ seen st ->
   view_step new_path st view
   = mkState (rows st) (seen st) k
       (debug_lines st ++
          [found_line view k; no_comments_line (attrib_get view "name" "");
           duplicate_line row])).
Proof.
  intros Hnone k row key. repeat split.
  - intros Hnew. rewrite view_step_no_container by exact Hnone.
    rewrite add_row_new by exact Hnew. simpl. rewrite <- app_assoc. reflexivity.
  - intros Hold. rewrite view_step_no_container by exact Hnone.
    rewrite add_row_duplicate by exact Hold. simpl. rewrite <- !app_assoc. reflexivity.
Qed.

(** The theorem at the first view of a document. *)
Lemma C6_view_without_comments_witness :
  view_step ["A"] initial_state (no_comment_view "V1" "G1")
  = mkState [no_comment_row ["A"] (no_comment_view "V1" "G1") 1]
      ({[(Some "G1", None)]} ∪ ∅) 1
      [found_line (no_comment_view "V1" "G1") 1; no_comments_line "V1"].
Proof.
  apply (proj1 (proj2 (proj2 (proj2 (proj2 (proj2
           (C6_view_without_comments ["A"] initial_state (no_comment_view "V1" "G1")
              eq_refl))))))).
  apply not_elem_of_empty.
Defined.

(** ** Views with an empty comments element *)

Lemma no_comments_lines_log (m : string) (st : State) :
  is_no_comments_line m = false ->
  no_comments_lines (debug_lines (log m st)) = no_comments_lines (debug_lines st).
Proof.
  intros Hm. simpl. unfold no_comments_lines. rewrite List.filter_app. simpl.
  rewrite Hm. apply app_nil_r.
Qed.

Lemma no_comments_lines_add_row (row : Row) (st : State) :
  no_comments_lines (debug_lines (add_row row st)) = no_comments_lines (debug_lines st).
Proof.
  unfold add_row. destruct (decide (row_key row ∉ seen st)); [reflexivity|].
  apply no_comments_lines_log. reflexivity.
Qed.

Lemma no_comments_lines_comment_step p vn g im st c :
  no_comments_lines (debug_lines (comment_step p vn g im st c))
  = no_comments_lines (debug_lines st).
Proof.
  unfold comment_step.
  assert (Hd : no_comments_lines
                 (debug_lines
                    (snd (match find "createddate" c with
                          | Some _ => parse_createddate (find "createddate" c) st
                          | None => (None, st)
                          end)))
               = no_comments_lines (debug_lines st)).
  { destruct (find "createddate" c); [|reflexivity].
    unfold parse_createddate. destruct (parse_createddate_try _); [|reflexivity].
    apply no_comments_lines_log. reflexivity. }
  destruct (match find "createddate" c with
            | Some _ => parse_createddate (find "createddate" c) st
            | None => (None, st)
            end) as [r st1]. simpl in Hd.
  rewrite no_comments_lines_add_row, no_comments_lines_log by reflexivity.
  exact Hd.
Qed.

Lemma no_comments_lines_comment_loop p vn g im (cs : list Element) :
  forall st,
    no_comments_lines (debug_lines (fold_left (comment_step p vn g im) cs st))
    = no_comments_lines (debug_lines st).
Proof.
  induction cs as [|c cs IH]; intros st; simpl; [reflexivity|].
  rewrite IH. apply no_comments_lines_comment_step.
Qed.

(** C9. A view whose [comments] element is present and holds no [comment]
    gets no row and no "no comments" line: the view only consumes a
    sequence number and leaves its view-discovery line.  More generally,
    whenever the [comments] element is present, whatever it holds, the view
    adds no "no comments" line. *)
Theorem C9_empty_comments_container
    (new_path : list string) (st : State) (view comments : Element) :
  find "comments" view = Some comments ->
  (findall "comment" comments = [] ->
   view_step new_path st view
   = mkState (rows st) (seen st) (S (view_counter st))
       (debug_lines st ++ [found_line view (S (view_counter st))])) /\
  no_comments_lines (debug_lines (view_step new_path st view))
  = no_comments_lines (debug_lines st).
Proof.
  intros Hc. split.
  - intros Hempty. unfold view_step. rewrite Hc, Hempty. reflexivity.
  - unfold view_step. rewrite Hc. rewrite no_comments_lines_comment_loop.
    rewrite no_comments_lines_log by reflexivity. reflexivity.
Qed.

(** The theorem at a view with an empty [comments] element. *)
Lemma C9_empty_comments_container_witness :
  view_step ["A"] initial_state empty_comments_view
  = mkState [] ∅ 1
      ["  👀 Found view: V1 (GUID=G1) → navisworks_views_comments_vp0001.jpg"].
Proof.
  apply (proj1 (C9_empty_comments_container ["A"] initial_state empty_comments_view
                  (mkElement "comments" [] None None []) eq_refl)).
  reflexivity.
Defined.

(** ** Path columns *)

Lemma path_category_head (p : list string) : path_category p = head p.
Proof. destruct p; reflexivity. Qed.

Lemma path_level_second (p : list string) : path_level p = p !! 1.
Proof. destruct p as [|a [|b p]]; reflexivity. Qed.

Lemma path_subfolder_rest (p : list string) :
  path_subfolder p = if (length p <? 3)%nat then None else Some (join " > " (drop 2 p)).
Proof. destruct p as [|a [|b [|c p]]]; reflexivity. Qed.

(** C7. Every accepted row was built for a discovered view, and its three
    path columns come from the folder path [p] of that view: the category
    is the first element (absent for an empty path), the level is the
    second element (absent below two elements), the subfolder is the rest
    joined with [" > "] (absent below three elements).  A view under
    Cat, Sub, D1, D2 gets ["Cat"], ["Sub"] and ["D1 > D2"]. *)
Theorem C7_path_columns :
  (forall (root : Element) (r : Row),
      r ∈ fst (process_xml root) ->
      exists (i : nat) (p : list string) (v : Element),
        discovered_views root !! i = Some (p, v) /\
        col_view_name r = Some (attrib_get v "name" "") /\
        col_guid r = Some (attrib_get v "guid" "") /\
        col_category r = head p /\
        col_level r = p !! 1 /\
        col_subfolder r
        = if (length p <? 3)%nat then None else Some (join " > " (drop 2 p))) /\
  (forall (folder : Element) (path : list string),
      views_of folder path
      = map (pair (path ++ [attrib_get folder "name" ""])) (findall "view" folder) ++
        flat_map (fun child => views_of child (path ++ [attrib_get folder "name" ""]))
          (findall "viewfolder" folder)) /\
  (path_category ["Cat"; "Sub"; "D1"; "D2"] = Some "Cat" /\
   path_level ["Cat"; "Sub"; "D1"; "D2"] = Some "Sub" /\
   path_subfolder ["Cat"; "Sub"; "D1"; "D2"] = Some "D1 > D2") /\
  (map fst (discovered_views nested_document) = [["Cat"; "Sub"; "D1"; "D2"]] /\
   map (fun r => (col_category r, col_level r, col_subfolder r))
     (fst (process_xml nested_document))
   = [(Some "Cat", Some "Sub", Some "D1 > D2")]).
Proof.
  split; [|split; [|split]].
  - intros root r Hr.
    destruct (walk_effect_walk root) as (_ & _ & new & Hrows & Hnew).
    unfold process_xml in Hr. simpl in Hr, Hrows. rewrite Hrows in Hr.
    rewrite List.Forall_forall in Hnew. apply list_elem_of_In in Hr.
    destruct (Hnew r Hr) as (i & p & v & Hi & Hrow).
    destruct Hrow as (Hcat & Hlevel & Hsub & Hname & Hguid & _ & _).
    exists i, p, v.
    rewrite Hcat, Hlevel, Hsub, path_category_head, path_level_second, path_subfolder_rest.
    repeat split; assumption.
  - intros folder path. apply views_of_unfold.
  - repeat split.
  - vm_compute. repeat split.
Qed.

(** The theorem at the row of the nested document. *)
Lemma C7_path_columns_witness :
  let r := mkRow (Some "Cat") (Some "Sub") (Some "D1 > D2") (Some "V") (Some "G")
             None None None None None (Some "navisworks_views_comments_vp0001.jpg") in
  exists (i : nat) (p : list string) (v : Element),
    discovered_views nested_document !! i = Some (p, v) /\
    col_view_name r = Some (attrib_get v "name" "") /\
    col_guid r = Some (attrib_get v "guid" "") /\
    col_category r = head p /\
    col_level r = p !! 1 /\
    col_subfolder r = if (length p <? 3)%nat then None else Some (join " > " (drop 2 p)).
Proof.
  intros r. apply (proj1 C7_path_columns nested_document r).
  assert (E : fst (process_xml nested_document) = [r]) by (vm_compute; reflexivity).
  rewrite E. constructor.
Defined.

(** ** Missing attributes *)

Lemma tag_with_default key e : tag (with_default key e) = tag e.
Proof. unfold with_default. destruct (dict_get key (attrib e)); reflexivity. Qed.

Lemma children_with_default key e : children (with_default key e) = children e.
Proof. unfold with_default. destruct (dict_get key (attrib e)); reflexivity. Qed.

Lemma dict_get_app_default (key key' : string) (d : list (string * string)) :
  dict_get key' (d ++ [(key, "")])
  = match dict_get key' d with
    | Some v => Some v
    | None => if String.eqb key key' then Some "" else None
    end.
Proof.
  induction d as [|[k v] d IH]; simpl; [reflexivity|].
  destruct (String.eqb k key'); [reflexivity|exact IH].
Qed.

Lemma attrib_get_with_default (key key' : string) (e : Element) :
  attrib_get (with_default key e) key' "" = attrib_get e key' "".
Proof.
  unfold with_default, attrib_get.
  destruct (dict_get key (attrib e)) eqn:Hk; [reflexivity|].
  simpl. rewrite dict_get_app_default.
  destruct (dict_get key' (attrib e)) eqn:Hk'; [reflexivity|].
  destruct (String.eqb key key'); reflexivity.
Qed.

Lemma find_with_default name key e : find name (with_default key e) = find name e.
Proof. unfold find. rewrite children_with_default. reflexivity. Qed.

Lemma findall_with_default name key e : findall name (with_default key e) = findall name e.
Proof. unfold findall. rewrite children_with_default. reflexivity. Qed.

Lemma findtext_with_default name key e :
  findtext name (with_default key e) = findtext name e.
Proof. unfold findtext. rewrite find_with_default. reflexivity. Qed.

Lemma filter_map_tag (name : string) (g : Element -> Element) (l : list Element) :
  (forall c, tag (g c) = tag c) ->
  List.filter (has_tag name) (map g l) = map g (List.filter (has_tag name) l).
Proof.
  intros Hg. induction l as [|c l IH]; simpl; [reflexivity|].
  unfold has_tag at 1. rewrite Hg. fold (has_tag name c).
  destruct (has_tag name c); simpl; rewrite IH; reflexivity.
Qed.

Lemma find_map_tag (name : string) (g : Element -> Element) (l : list Element) :
  (forall c, tag (g c) = tag c) ->
  List.find (has_tag name) (map g l) = option_map g (List.find (has_tag name) l).
Proof.
  intros Hg. induction l as [|c l IH]; simpl; [reflexivity|].
  unfold has_tag at 1. rewrite Hg. fold (has_tag name c).
  destruct (has_tag name c); [reflexivity|exact IH].
Qed.

Lemma fold_left_map {A B : Type} (f : State -> B -> State) (g : A -> B) (l : list A) :
  forall st, fold_left f (map g l) st = fold_left (fun st x => f st (g x)) l st.
Proof. induction l as [|x l IH]; intros st; simpl; [reflexivity|apply IH]. Qed.

Lemma fold_left_ext_in {A : Type} (f f' : State -> A -> State) (l : list A) :
  Forall (fun x => forall st, f st x = f' st x) l ->
  forall st, fold_left f l st = fold_left f' l st.
Proof.
  induction 1 as [|x l Hx _ IH]; intros st; simpl; [reflexivity|].
  rewrite Hx. apply IH.
Qed.

Lemma findall_has_tag (name : string) (e c : Element) :
  In c (findall name e) -> has_tag name c = true.
Proof. unfold findall. intros H. apply List.filter_In in H. apply H. Qed.

Lemma tag_fill_comment c : tag (fill_comment c) = tag c.
Proof. unfold fill_comment. rewrite !tag_with_default. reflexivity. Qed.

Lemma tag_fill_view v : tag (fill_view v) = tag v.
Proof. unfold fill_view. rewrite !tag_with_default. reflexivity. Qed.

Lemma tag_fill_folder folder : tag (fill_folder folder) = tag folder.
Proof. destruct folder as [t a x l cs]. simpl. rewrite tag_with_default. reflexivity. Qed.

Lemma comment_step_fill p vn g im st c :
  comment_step p vn g im st (fill_comment c) = comment_step p vn g im st c.
Proof.
  unfold comment_step, fill_comment.
  rewrite !attrib_get_with_default, !findtext_with_default, !find_with_default.
  reflexivity.
Qed.

Lemma view_step_fill p st v : view_step p st (fill_view v) = view_step p st v.
Proof.
  unfold view_step, fill_view.
  rewrite !attrib_get_with_default, !find_with_default.
  set (g := fun c => if has_tag "comments" c then fill_comments c else c).
  assert (Hg : forall c, tag (g c) = tag c).
  { intros c. unfold g. destruct (has_tag "comments" c); reflexivity. }
  change (attrib_get (map_children g v)) with (attrib_get v).
  unfold find at 1. simpl. rewrite (find_map_tag "comments" g _ Hg).
  fold (find "comments" v).
  destruct (find "comments" v) as [cs|] eqn:Hcs; simpl; [|reflexivity].
  assert (Htag : has_tag "comments" cs = true).
  { unfold find in Hcs. apply List.find_some in Hcs. apply Hcs. }
  unfold g. rewrite Htag. unfold fill_comments, findall at 1. simpl.
  rewrite filter_map_tag.
  - fold (findall "comment" cs). rewrite fold_left_map.
    apply fold_left_ext_in. apply List.Forall_forall. intros c Hc st'.
    rewrite (findall_has_tag _ _ _ Hc). apply comment_step_fill.
  - intros c. destruct (has_tag "comment" c); [apply tag_fill_comment|reflexivity].
Qed.

Lemma recurse_fill (folder : Element) :
  forall path st, recurse (fill_folder folder) path st = recurse folder path st.
Proof.
  induction folder as [t a x l cs IHcs] using Element_nested_ind.
  intros path st. rewrite !recurse_unfold.
  set (g := fun c => if has_tag "view" c then fill_view c
                     else if has_tag "viewfolder" c then fill_folder c else c).
  assert (Hg : forall c, tag (g c) = tag c).
  { intros c. unfold g. destruct (has_tag "view" c); [apply tag_fill_view|].
    destruct (has_tag "viewfolder" c); [apply tag_fill_folder|reflexivity]. }
  assert (Hnp : new_path_of (fill_folder (mkElement t a x l cs)) path
                = new_path_of (mkElement t a x l cs) path).
  { unfold new_path_of. simpl. rewrite attrib_get_with_default. reflexivity. }
  rewrite Hnp. set (np := new_path_of (mkElement t a x l cs) path).
  assert (Hviews : findall "view" (fill_folder (mkElement t a x l cs))
                   = map g (findall "view" (mkElement t a x l cs))).
  { simpl. rewrite findall_with_default. unfold findall. simpl.
    apply filter_map_tag, Hg. }
  assert (Hfolders : findall "viewfolder" (fill_folder (mkElement t a x l cs))
                     = map g (findall "viewfolder" (mkElement t a x l cs))).
  { simpl. rewrite findall_with_default. unfold findall. simpl.
    apply filter_map_tag, Hg. }
  rewrite Hviews, Hfolders, !fold_left_map.
  assert (Hv : forall st0,
             fold_left (fun st' v => view_step np st' (g v))
               (findall "view" (mkElement t a x l cs)) st0
             = fold_left (view_step np) (findall "view" (mkElement t a x l cs)) st0).
  { apply fold_left_ext_in. apply List.Forall_forall. intros v Hv st'.
    unfold g. rewrite (findall_has_tag _ _ _ Hv). apply view_step_fill. }
  rewrite Hv. apply fold_left_ext_in. apply List.Forall_forall. intros c Hc st'.
  pose proof (findall_has_tag _ _ _ Hc) as Hvf.
  unfold findall in Hc. apply List.filter_In in Hc. destruct Hc as [Hc _]. simpl in Hc.
  assert (Hview : has_tag "view" c = false).
  { unfold has_tag in *. apply String.eqb_eq in Hvf. rewrite Hvf. reflexivity. }
  unfold g. rewrite Hview, Hvf.
  rewrite List.Forall_forall in IHcs. apply IHcs, Hc.
Qed.

Lemma top_folders_fill (root : Element) :
  top_folders (fill_document root) = map fill_folder (top_folders root).
Proof.
  unfold top_folders, fill_document.
  set (gf := fun vf => if has_tag "viewfolder" vf then fill_folder vf else vf).
  set (gp := fun vp => if has_tag "viewpoints" vp then map_children gf vp else vp).
  assert (Hgf : forall c, tag (gf c) = tag c).
  { intros c. unfold gf. destruct (has_tag "viewfolder" c); [apply tag_fill_folder|reflexivity]. }
  assert (Hgp : forall c, tag (gp c) = tag c).
  { intros c. unfold gp. destruct (has_tag "viewpoints" c); reflexivity. }
  unfold findall at 2. simpl. rewrite (filter_map_tag "viewpoints" gp _ Hgp).
  fold (findall "viewpoints" root).
  assert (Hall : Forall (fun vp => has_tag "viewpoints" vp = true) (findall "viewpoints" root)).
  { apply List.Forall_forall. intros vp Hvp. exact (findall_has_tag _ _ _ Hvp). }
  induction Hall as [|vp vps Hvp _ IH]; simpl; [reflexivity|].
  rewrite map_app, IH. f_equal.
  unfold gp. rewrite Hvp. unfold findall. simpl.
  rewrite (filter_map_tag "viewfolder" gf _ Hgf).
  apply map_ext_in. intros vf Hvf. apply List.filter_In in Hvf.
  unfold gf. destruct Hvf as [_ ->]. reflexivity.
Qed.

Lemma walk_fill (root : Element) : walk (fill_document root) = walk root.
Proof.
  unfold walk. rewrite top_folders_fill, fold_left_map.
  apply fold_left_ext_in. apply List.Forall_forall. intros vf _ st.
  apply recurse_fill.
Qed.

(** A comment without [user] and [body] elements gets [None] in these two
    columns, not the empty string, and its line reads [User=None]. *)
Lemma C8_missing_user_is_not_empty_string :
  exists r : Row,
    fst (process_xml bare_document) !! 0 = Some r /\
    col_comment_id r = Some "" /\ col_status r = Some "" /\
    col_user r = None /\ col_body r = None /\
    col_user r <> Some "" /\ col_body r <> Some "" /\
    snd (process_xml bare_document) !! 2 = Some "    💬 Comment ID=, Status=, User=None".
Proof.
  eexists. vm_compute. repeat split; discriminate.
Qed.

(** C8 (amended). An attribute lookup on an element that lacks the
    attribute gives the empty string; the walk of a document is the walk of
    the same document with every missing folder name, view name, view
    identifier, comment id and comment status made explicit and empty, rows
    and diagnostic lines alike; a missing [user] or [body] element is read
    as [None], one without text as the empty string; and every accepted row
    has its category, view name, identifier and image reference present,
    its comment columns being either all absent or with id and status
    present.  (The walk is a total function: outside the guarded date
    conversion it performs no operation that can raise.) *)
Theorem C8_missing_attributes_read_as_empty :
  (forall (e : Element) (key : string),
      dict_get key (attrib e) = None -> attrib_get e key "" = "") /\
  (forall (comment : Element) (name : string),
      (find name comment = None -> findtext name comment = None) /\
      (forall c, find name comment = Some c -> text c = None ->
                 findtext name comment = Some "")) /\
  (forall root : Element, process_xml (fill_document root) = process_xml root) /\
  (forall (root : Element) (r : Row),
      r ∈ fst (process_xml root) ->
      is_Some (col_category r) /\ is_Some (col_view_name r) /\
      is_Some (col_guid r) /\ is_Some (col_image_path r) /\
      ((col_comment_id r = None /\ col_status r = None /\ col_user r = None /\
        col_body r = None /\ col_created_date r = None) \/
       (is_Some (col_comment_id r) /\ is_Some (col_status r)))) /\
  process_xml bare_document
  = ([mkRow (Some "") None None (Some "") (Some "") (Some "") (Some "") None None None
        (Some "navisworks_views_comments_vp0001.jpg");
      mkRow (Some "") None None (Some "") (Some "") None None None None None
        (Some "navisworks_views_comments_vp0002.jpg")],
     ["📂 Entering folder: ";
      "  👀 Found view:  (GUID=) → navisworks_views_comments_vp0001.jpg";
      "    💬 Comment ID=, Status=, User=None";
      "  👀 Found view:  (GUID=) → navisworks_views_comments_vp0002.jpg";
      "    ⚠️ No comments found for "]).
Proof.
  split; [|split; [|split; [|split]]].
  - intros e key H. unfold attrib_get. rewrite H. reflexivity.
  - intros comment name. split.
    + intros H. unfold findtext. rewrite H. reflexivity.
    + intros c H Ht. unfold findtext. rewrite H, Ht. reflexivity.
  - intros root. unfold process_xml. rewrite walk_fill. reflexivity.
  - intros root r Hr.
    destruct (walk_effect_walk root) as (_ & _ & new & Hrows & Hnew).
    unfold process_xml in Hr. simpl in Hr, Hrows. rewrite Hrows in Hr.
    rewrite List.Forall_forall in Hnew. apply list_elem_of_In in Hr.
    destruct (Hnew r Hr) as (i & p & v & Hi & Hrow).
    destruct Hrow as (Hcat & _ & _ & Hname & Hguid & Himg & Hcomment).
    assert (Hp : p <> []).
    { assert (Hall : Forall (fun pv => fst pv <> []) (discovered_views root)).
      { unfold discovered_views. apply List.Forall_forall. intros pv Hpv.
        apply in_flat_map in Hpv. destruct Hpv as (vf & _ & Hpv).
        pose proof (views_of_path_nonempty vf []) as Hne.
        rewrite List.Forall_forall in Hne. apply Hne, Hpv. }
      rewrite List.Forall_forall in Hall.
      apply (Hall (p, v)). apply list_elem_of_In. eapply list_elem_of_lookup_2, Hi. }
    rewrite Hcat, Hname, Hguid, Himg. repeat split; try (eexists; reflexivity).
    + destruct p as [|a p]; [contradiction|]. eexists; reflexivity.
    + destruct Hcomment as [Hnone|(cid & status & Hcid & Hstatus)]; [left; exact Hnone|].
      right. rewrite Hcid, Hstatus. split; eexists; reflexivity.
  - vm_compute. reflexivity.
Qed.

(** The theorem at a view without attributes and at the rows of the bare
    document. *)
Lemma C8_missing_attributes_read_as_empty_witness :
  attrib_get (mkElement "view" [] None None []) "guid" "" = "" /\
  let r := mkRow (Some "") None None (Some "") (Some "") None None None None None
             (Some "navisworks_views_comments_vp0002.jpg") in
  is_Some (col_category r) /\ is_Some (col_view_name r) /\
  is_Some (col_guid r) /\ is_Some (col_image_path r) /\
  ((col_comment_id r = None /\ col_status r = None /\ col_user r = None /\
    col_body r = None /\ col_created_date r = None) \/
   (is_Some (col_comment_id r) /\ is_Some (col_status r))).
Proof.
  split.
  - apply (proj1 C8_missing_attributes_read_as_empty
             (mkElement "view" [] None None []) "guid").
    reflexivity.
  - intros r.
    apply (proj1 (proj2 (proj2 (proj2 C8_missing_attributes_read_as_empty)))
             bare_document r).
    assert (E : fst (process_xml bare_document)
                = [mkRow (Some "") None None (Some "") (Some "") (Some "") (Some "")
                     None None None (Some "navisworks_views_comments_vp0001.jpg"); r])
      by (vm_compute; reflexivity).
    rewrite E. constructor. constructor.
Defined.

(** ** The legacy script against the refactored program *)

Lemma sim_log_rel (ml mr : string) (sl sr : State) :
  line_sim ml mr -> state_sim sl sr ->
  state_sim (Legacy.append_debug ml sl) (log mr sr).
Proof.
  intros Hm (Hrows & Hseen & Hc & Hlines). repeat split; try assumption.
  simpl. apply Forall2_app; [exact Hlines|]. constructor; [exact Hm|constructor].
Qed.

Lemma sim_log (m : string) (sl sr : State) :
  state_sim sl sr -> state_sim (Legacy.append_debug m sl) (log m sr).
Proof. apply sim_log_rel. left. reflexivity. Qed.

Lemma row_sim_key (rl rr : Row) :
  row_sim rl rr -> (col_guid rl, col_comment_id rl) = row_key rr.
Proof.
  intros (n & _ & _ & Heq). unfold set_image_path in Heq. unfold row_key.
  inversion Heq. reflexivity.
Qed.

Lemma row_sim_duplicate_line (rl rr : Row) :
  row_sim rl rr -> duplicate_line rl = duplicate_line rr.
Proof.
  intros H. apply row_sim_key in H. unfold row_key in H. inversion H as [[Hg Hc]].
  unfold duplicate_line. rewrite Hg, Hc. reflexivity.
Qed.

Lemma sim_add_row (rl rr : Row) (sl sr : State) :
  row_sim rl rr -> state_sim sl sr ->
  state_sim (Legacy.add_row rl sl) (add_row rr sr).
Proof.
  intros Hr Hs. pose proof Hs as (Hrows & Hseen & Hc & Hlines).
  unfold Legacy.add_row, add_row.
  rewrite (row_sim_key rl rr Hr).
  destruct (decide (row_key rr ∉ seen sl)) as [Hl|Hl];
    destruct (decide (row_key rr ∉ seen sr)) as [Hrr|Hrr];
    try (exfalso; rewrite Hseen in Hl; contradiction).
  - split; [|split; [|split]]; simpl; try assumption.
    + apply Forall2_app; [exact Hrows|]. constructor; [exact Hr|constructor].
    + rewrite Hseen. reflexivity.
  - rewrite (row_sim_duplicate_line rl rr Hr).
    apply (sim_log (duplicate_line rr) sl sr Hs).
Qed.

Lemma sim_parse_createddate (created : option Element) (sl sr : State) :
  state_sim sl sr ->
  fst (Legacy.parse_createddate created sl) = fst (parse_createddate created sr) /\
  state_sim (snd (Legacy.parse_createddate created sl)) (snd (parse_createddate created sr)).
Proof.
  intros Hs. unfold Legacy.parse_createddate, parse_createddate.
  change (Legacy.parse_createddate_try created) with (parse_createddate_try created).
  destruct (parse_createddate_try created) as [e|r]; simpl.
  - split; [reflexivity|]. apply (sim_log (failure_line e created) sl sr Hs).
  - split; [reflexivity|exact Hs].
Qed.

Lemma sim_comment_step p vn g (n : nat) (sl sr : State) (c : Element) :
  state_sim sl sr ->
  state_sim
    (Legacy.comment_step p vn g ("vp" +:+ zfill 4 (str_nat n) +:+ ".jpg") sl c)
    (comment_step p vn g (image_file_name IMAGE_FILE_PREFIX n) sr c).
Proof.
  intros Hs. unfold Legacy.comment_step, comment_step.
  assert (Hd : fst (match find "createddate" c with
                    | Some _ => Legacy.parse_createddate (find "createddate" c) sl
                    | None => (None, sl)
                    end)
               = fst (match find "createddate" c with
                      | Some _ => parse_createddate (find "createddate" c) sr
                      | None => (None, sr)
                      end) /\
               state_sim
                 (snd (match find "createddate" c with
                       | Some _ => Legacy.parse_createddate (find "createddate" c) sl
                       | None => (None, sl)
                       end))
                 (snd (match find "createddate" c with
                       | Some _ => parse_createddate (find "createddate" c) sr
                       | None => (None, sr)
                       end))).
  { destruct (find "createddate" c); [apply sim_parse_createddate, Hs|].
    split; [reflexivity|exact Hs]. }
  destruct (match find "createddate" c with
            | Some _ => Legacy.parse_createddate (find "createddate" c) sl
            | None => (None, sl)
            end) as [dl sl1].
  destruct (match find "createddate" c with
            | Some _ => parse_createddate (find "createddate" c) sr
            | None => (None, sr)
            end) as [dr sr1].
  simpl in Hd. destruct Hd as [-> Hs1].
  apply sim_add_row; [|apply sim_log, Hs1].
  exists n. repeat split.
Qed.

Lemma sim_fold {A : Type} (fl fr : State -> A -> State) (l : list A) :
  Forall (fun x => forall sl sr, state_sim sl sr -> state_sim (fl sl x) (fr sr x)) l ->
  forall sl sr, state_sim sl sr -> state_sim (fold_left fl l sl) (fold_left fr l sr).
Proof.
  induction 1 as [|x l Hx _ IH]; intros sl sr Hs; simpl; [exact Hs|].
  apply IH, Hx, Hs.
Qed.

Lemma sim_view_step p (sl sr : State) (v : Element) :
  state_sim sl sr -> state_sim (Legacy.view_step p sl v) (view_step p sr v).
Proof.
  intros Hs. pose proof Hs as (Hrows & Hseen & Hc & Hlines).
  unfold Legacy.view_step, view_step. simpl. rewrite Hc.
  set (n := S (view_counter sr)).
  set (vn := attrib_get v "name" ""). set (g := attrib_get v "guid" "").
  assert (Hs1 : state_sim
                  (Legacy.append_debug
                     (view_line vn g ("vp" +:+ zfill 4 (str_nat n) +:+ ".jpg"))
                     (mkState (rows sl) (seen sl) n (debug_lines sl)))
                  (log (view_line vn g (image_file_name IMAGE_FILE_PREFIX n))
                     (bump_counter sr))).
  { apply sim_log_rel.
    - right. exists vn, g, n. split; reflexivity.
    - repeat split; assumption. }
  destruct (find "comments" v) as [cs|].
  - apply sim_fold; [|exact Hs1].
    apply List.Forall_forall. intros c _ sl' sr'. apply sim_comment_step.
  - apply sim_add_row; [|apply sim_log, Hs1].
    exists n. repeat split.
Qed.

Lemma sim_recurse (folder : Element) :
  forall path sl sr,
    state_sim sl sr -> state_sim (Legacy.recurse folder path sl) (recurse folder path sr).
Proof.
  induction folder as [t a x l cs IHcs] using Element_nested_ind.
  intros path sl sr Hs. rewrite legacy_recurse_unfold, recurse_unfold.
  apply sim_fold.
  - apply Forall_findall. simpl.
    eapply List.Forall_impl; [|exact IHcs]. simpl. intros c Hc sl' sr'. apply Hc.
  - apply sim_fold.
    + apply List.Forall_forall. intros v _ sl' sr'. apply sim_view_step.
    + apply sim_log, Hs.
Qed.

(** On the sample document the two programs give different image
    references, hence different rows and different diagnostic lines. *)
Lemma C10_image_references_differ :
  map col_image_path (fst (Legacy.run sample_document))
  = [Some "vp0001.jpg"; Some "vp0001.jpg"] /\
  map col_image_path (fst (process_xml sample_document))
  = [Some "navisworks_views_comments_vp0001.jpg";
     Some "navisworks_views_comments_vp0001.jpg"] /\
  fst (Legacy.run sample_document) <> fst (process_xml sample_document) /\
  snd (Legacy.run sample_document) !! 1
  = Some "  👀 Found view: V1 (GUID=G1) → vp0001.jpg" /\
  snd (process_xml sample_document) !! 1
  = Some "  👀 Found view: V1 (GUID=G1) → navisworks_views_comments_vp0001.jpg" /\
  snd (Legacy.run sample_document) <> snd (process_xml sample_document).
Proof.
  split; [vm_compute; reflexivity|]. split; [vm_compute; reflexivity|].
  split; [vm_compute; discriminate|]. split; [vm_compute; reflexivity|].
  split; [vm_compute; reflexivity|]. vm_compute. discriminate.
Qed.

(** C10 (amended). For every document the legacy script and the refactored
    program accept rows that correspond one to one, in order, agreeing on
    the first ten columns and carrying the image reference of the same
    sequence number, ["vp"] + digits + [".jpg"] in the legacy script and
    ["navisworks_views_comments_vp"] + digits + [".jpg"] in the refactored
    program; and they write diagnostic lines that correspond one to one, in
    order, equal except for the view-discovery lines, which differ in the
    reference they cite. *)
Theorem C10_legacy_and_refactored_agree_up_to_prefix (root : Element) :
  Forall2 row_sim (fst (Legacy.run root)) (fst (process_xml root)) /\
  Forall2 line_sim (snd (Legacy.run root)) (snd (process_xml root)) /\
  map (set_image_path None) (fst (Legacy.run root))
  = map (set_image_path None) (fst (process_xml root)) /\
  length (snd (Legacy.run root)) = length (snd (process_xml root)).
Proof.
  assert (Hs : state_sim
                 (fold_left (fun st vf => Legacy.recurse vf [] st) (top_folders root)
                    (mkState [] ∅ 0 []))
                 (walk root)).
  { unfold walk. apply sim_fold.
    - apply List.Forall_forall. intros vf _ sl sr. apply sim_recurse.
    - repeat split; constructor. }
  destruct Hs as (Hrows & _ & _ & Hlines).
  unfold Legacy.run, process_xml. simpl.
  split; [exact Hrows|]. split; [exact Hlines|]. split.
  - induction Hrows as [|rl rr ll lr (n & _ & _ & Heq) _ IH]; simpl; [reflexivity|].
    rewrite Heq, IH. reflexivity.
  - eapply Forall2_length, Hlines.
Qed.

(** The end-to-end scenario: one folder A, one view V1 with identifier G1,
    comments C1 and C2 and a repeated C1 give two rows and one duplicate
    line, with category A and the other two path columns absent. *)
Example end_to_end_scenario :
  map (fun r => (col_category r, col_level r, col_subfolder r, col_guid r, col_comment_id r))
    (fst (process_xml sample_document))
  = [(Some "A", None, None, Some "G1", Some "C1");
     (Some "A", None, None, Some "G1", Some "C2")] /\
  snd (process_xml sample_document)
  = ["📂 Entering folder: A";
     "  👀 Found view: V1 (GUID=G1) → navisworks_views_comments_vp0001.jpg";
     "    💬 Comment ID=C1, Status=Active, User=bob";
     "    💬 Comment ID=C2, Status=Active, User=bob";
     "    💬 Comment ID=C1, Status=Active, User=bob";
     "⚠️ Duplicate skipped: GUID=G1, CommentID=C1"].
Proof. vm_compute. split; reflexivity. Qed.

(* ===================================================================== *)
(** * Part 6: further properties of the program                           *)
(* ===================================================================== *)

(** ** The shared objects only grow *)

(** X1. The walk of a folder only ever appends to the diagnostic log, only
    ever adds keys to [seen] and never lowers the counter: the lines, keys
    and count it starts from are still there, in place, when it returns. *)
Theorem X1_walk_only_grows (folder : Element) (path : list string) (st : State) :
  debug_lines st `prefix_of` debug_lines (recurse folder path st) /\
  seen st ⊆ seen (recurse folder path st) /\
  view_counter st <= view_counter (recurse folder path st).
Proof.
  apply (recurse_closed
           (fun st' => debug_lines st `prefix_of` debug_lines st' /\
                       seen st ⊆ seen st' /\
                       view_counter st <= view_counter st')).
  - intros m st' (Hl & Hs & Hc). repeat split; try assumption.
    simpl. etransitivity; [exact Hl|]. apply prefix_app_r. reflexivity.
  - intros st' (Hl & Hs & Hc). repeat split; try assumption. simpl. lia.
  - intros row st' (Hl & Hs & Hc). unfold add_row.
    destruct (decide (row_key row ∉ seen st')); simpl.
    + repeat split; try assumption. set_solver.
    + repeat split; try assumption.
      etransitivity; [exact Hl|]. apply prefix_app_r. reflexivity.
  - repeat split; reflexivity.
Qed.

(** ** Every submitted row is accepted or reported *)

Lemma settled_log (m : string) (st : State) :
  is_duplicate_line m = false -> settled (log m st) = settled st.
Proof.
  intros Hm. unfold settled, duplicate_lines. simpl.
  rewrite List.filter_app. simpl. rewrite Hm, app_nil_r. reflexivity.
Qed.

Lemma is_duplicate_line_duplicate (row : Row) :
  is_duplicate_line (duplicate_line row) = true.
Proof. unfold is_duplicate_line, duplicate_line. apply prefix_append. Qed.

Lemma settled_add_row (row : Row) (st : State) :
  settled (add_row row st) = settled st + 1.
Proof.
  unfold add_row, settled, duplicate_lines.
  destruct (decide (row_key row ∉ seen st)); simpl.
  - rewrite length_app. simpl. lia.
  - rewrite List.filter_app, length_app. simpl.
    rewrite is_duplicate_line_duplicate. simpl. lia.
Qed.

Lemma settled_parse_createddate (created : option Element) (st : State) :
  settled (snd (parse_createddate created st)) = settled st.
Proof.
  unfold parse_createddate. destruct (parse_createddate_try created); simpl.
  - apply settled_log. reflexivity.
  - reflexivity.
Qed.

Lemma settled_comment_step p vn g im st c :
  settled (comment_step p vn g im st c) = settled st + 1.
Proof.
  unfold comment_step.
  assert (Hd : settled (snd (match find "createddate" c with
                             | Some _ => parse_createddate (find "createddate" c) st
                             | None => (None, st)
                             end)) = settled st).
  { destruct (find "createddate" c); [apply settled_parse_createddate|reflexivity]. }
  destruct (match find "createddate" c with
            | Some _ => parse_createddate (find "createddate" c) st
            | None => (None, st)
            end) as [r st1]. simpl in Hd.
  rewrite settled_add_row, settled_log by reflexivity. rewrite Hd. reflexivity.
Qed.

Lemma settled_fold {A : Type} (f : State -> A -> State) (g : A -> nat) (l : list A) :
  Forall (fun x => forall st, settled (f st x) = settled st + g x) l ->
  forall st, settled (fold_left f l st) = settled st + list_sum (map g l).
Proof.
  induction 1 as [|x l Hx _ IH]; intros st; simpl; [lia|].
  rewrite IH, Hx. lia.
Qed.

Lemma settled_view_step p st v :
  settled (view_step p st v) = settled st + view_submissions v.
Proof.
  unfold view_step, view_submissions.
  destruct (find "comments" v) as [cs|].
  - rewrite (settled_fold _ (fun _ => 1)).
    + rewrite settled_log by reflexivity.
      assert (Hsum : forall l : list Element, list_sum (map (fun _ => 1) l) = length l).
      { induction l as [|x l IH]; simpl; [|rewrite IH]; reflexivity. }
      rewrite Hsum. reflexivity.
    + apply List.Forall_forall. intros c _ st'. apply settled_comment_step.
  - rewrite settled_add_row, !settled_log by reflexivity. reflexivity.
Qed.

Lemma submissions_app vs1 vs2 : submissions (vs1 ++ vs2) = submissions vs1 + submissions vs2.
Proof. unfold submissions. rewrite map_app, list_sum_app. reflexivity. Qed.

Lemma submissions_flat_map {A : Type} (f : A -> list (list string * Element)) (l : list A) :
  submissions (flat_map f l) = list_sum (map (fun x => submissions (f x)) l).
Proof.
  induction l as [|x l IH]; simpl; [reflexivity|].
  rewrite submissions_app, IH. reflexivity.
Qed.

Lemma settled_recurse (folder : Element) :
  forall path st,
    settled (recurse folder path st) = settled st + submissions (views_of folder path).
Proof.
  induction folder as [t a x l cs IHcs] using Element_nested_ind.
  intros path st. rewrite recurse_unfold, views_of_unfold, submissions_app.
  set (folder := mkElement t a x l cs). set (np := new_path_of folder path).
  rewrite submissions_flat_map.
  rewrite (settled_fold _ (fun child => submissions (views_of child np))).
  - rewrite (settled_fold _ view_submissions).
    + rewrite settled_log by reflexivity.
      unfold submissions. rewrite map_map. simpl.
      rewrite <- Nat.add_assoc. reflexivity.
    + apply List.Forall_forall. intros v _ st'. apply settled_view_step.
  - apply Forall_findall. simpl.
    eapply List.Forall_impl; [|exact IHcs]. simpl. intros c Hc st'. apply Hc.
Qed.

(** X2. No submitted row is lost without a trace: after the walk of a
    document the number of accepted rows plus the number of "Duplicate
    skipped" lines equals the number of rows submitted, one per comment of
    every discovered view that has a [comments] element and one per
    discovered view that has none. *)
Theorem X2_accepted_plus_duplicates (root : Element) :
  length (fst (process_xml root)) + length (duplicate_lines (snd (process_xml root)))
  = submissions (discovered_views root).
Proof.
  change (settled (walk root) = submissions (discovered_views root)).
  unfold walk, discovered_views. rewrite submissions_flat_map.
  rewrite (settled_fold _ (fun vf => submissions (views_of vf []))).
  - reflexivity.
  - apply List.Forall_forall. intros vf _ st. apply settled_recurse.
Qed.

(** ** The category column *)

Lemma views_of_path_prefix (folder : Element) :
  forall path,
    Forall (fun pv => (path ++ [attrib_get folder "name" ""]) `prefix_of` fst pv)
      (views_of folder path).
Proof.
  induction folder as [t a x l cs IHcs] using Element_nested_ind.
  intros path. rewrite views_of_unfold. apply Forall_app. split.
  - apply List.Forall_forall. intros pv Hpv. apply in_map_iff in Hpv.
    destruct Hpv as [v [<- _]]. reflexivity.
  - apply List.Forall_forall. intros pv Hpv. apply in_flat_map in Hpv.
    destruct Hpv as [c [Hc Hpv]].
    apply List.filter_In in Hc. destruct Hc as [Hc _].
    rewrite List.Forall_forall in IHcs.
    specialize (IHcs c Hc (new_path_of (mkElement t a x l cs) path)).
    rewrite List.Forall_forall in IHcs. specialize (IHcs pv Hpv).
    eapply prefix_app_l. exact IHcs.
Qed.

(** X3. The category of every accepted row is the name of a top-level
    folder of the document (the empty string when that folder has no
    name): whatever the depth of the view, the first path column is fixed
    by the top-level folder the view sits under. *)
Theorem X3_category_is_top_folder_name (root : Element) (r : Row) :
  r ∈ fst (process_xml root) ->
  exists vf : Element,
    In vf (top_folders root) /\ col_category r = Some (attrib_get vf "name" "").
Proof.
  intros Hr.
  destruct (walk_effect_walk root) as (_ & _ & new & Hrows & Hnew).
  unfold process_xml in Hr. simpl in Hr, Hrows. rewrite Hrows in Hr.
  rewrite List.Forall_forall in Hnew. apply list_elem_of_In in Hr.
  destruct (Hnew r Hr) as (i & p & v & Hi & Hrow).
  destruct Hrow as (Hcat & _).
  assert (Hin : In (p, v) (discovered_views root)).
  { apply list_elem_of_In. eapply list_elem_of_lookup_2, Hi. }
  unfold discovered_views in Hin. apply in_flat_map in Hin.
  destruct Hin as (vf & Hvf & Hpv). exists vf. split; [exact Hvf|].
  pose proof (views_of_path_prefix vf []) as Hpre.
  rewrite List.Forall_forall in Hpre. specialize (Hpre (p, v) Hpv).
  destruct Hpre as [rest Hrest]. simpl in Hrest.
  rewrite Hcat, Hrest. reflexivity.
Qed.

(** The theorem at the row of the nested document. *)
Lemma X3_category_is_top_folder_name_witness :
  exists vf : Element,
    In vf (top_folders nested_document) /\
    col_category
      (mkRow (Some "Cat") (Some "Sub") (Some "D1 > D2") (Some "V") (Some "G")
         None None None None None (Some "navisworks_views_comments_vp0001.jpg"))
    = Some (attrib_get vf "name" "").
Proof.
  apply (X3_category_is_top_folder_name nested_document).
  assert (E : fst (process_xml nested_document)
              = [mkRow (Some "Cat") (Some "Sub") (Some "D1 > D2") (Some "V") (Some "G")
                   None None None None None (Some "navisworks_views_comments_vp0001.jpg")])
    by (vm_compute; reflexivity).
  rewrite E. constructor.
Defined.

(** ** Rows come in discovery order *)

Lemma nondecreasing_nil : nondecreasing [].
Proof. intros i j a b _ H. discriminate. Qed.

Lemma nondecreasing_app (ks1 ks2 : list nat) (mid : nat) :
  nondecreasing ks1 -> nondecreasing ks2 ->
  Forall (fun k => k <= mid) ks1 -> Forall (fun k => mid < k) ks2 ->
  nondecreasing (ks1 ++ ks2).
Proof.
  intros H1 H2 Hle Hgt i j a b Hij Ha Hb.
  rewrite List.Forall_forall in Hle, Hgt.
  destruct (lookup_app_Some ks1 ks2 i a) as [Hcase _].
  destruct (lookup_app_Some ks1 ks2 j b) as [Hcase' _].
  destruct (Hcase Ha) as [Ha1|[Hlen Ha2]]; destruct (Hcase' Hb) as [Hb1|[Hlen' Hb2]].
  - eapply H1; eassumption.
  - assert (a <= mid) by (apply Hle, list_elem_of_In; eapply list_elem_of_lookup_2, Ha1).
    assert (mid < b) by (apply Hgt, list_elem_of_In; eapply list_elem_of_lookup_2, Hb2).
    lia.
  - apply lookup_lt_Some in Hb1. lia.
  - eapply (H2 (i - length ks1) (j - length ks1)); [lia|eassumption..].
Qed.

Lemma ordered_refl st : ordered_effect st st.
Proof.
  split; [lia|]. exists [], []. rewrite app_nil_r.
  repeat split; [constructor|apply nondecreasing_nil].
Qed.

Lemma ordered_trans st1 st2 st3 :
  ordered_effect st1 st2 -> ordered_effect st2 st3 -> ordered_effect st1 st3.
Proof.
  intros (Hc1 & n1 & k1 & Hr1 & Hm1 & Hb1 & Hs1) (Hc2 & n2 & k2 & Hr2 & Hm2 & Hb2 & Hs2).
  split; [lia|]. exists (n1 ++ n2), (k1 ++ k2). split; [|split; [|split]].
  - rewrite Hr2, Hr1, app_assoc. reflexivity.
  - rewrite !map_app, Hm1, Hm2. reflexivity.
  - apply Forall_app. split.
    + eapply List.Forall_impl; [|exact Hb1]. simpl. intros k Hk. lia.
    + eapply List.Forall_impl; [|exact Hb2]. simpl. intros k Hk. lia.
  - apply (nondecreasing_app k1 k2 (view_counter st2)); try assumption.
    + eapply List.Forall_impl; [|exact Hb1]. simpl. intros k Hk. lia.
    + eapply List.Forall_impl; [|exact Hb2]. simpl. intros k Hk. lia.
Qed.

Lemma ordered_log m st : ordered_effect st (log m st).
Proof.
  split; [simpl; lia|]. exists [], []. simpl. rewrite app_nil_r.
  repeat split; [constructor|apply nondecreasing_nil].
Qed.

Lemma ordered_view_step p st v : ordered_effect st (view_step p st v).
Proof.
  destruct (walk_effect_view_step p st v) as (Hc & _ & new & Hrows & Hnew).
  simpl in Hc. split; [lia|].
  exists new, (map (fun _ => S (view_counter st)) new). split; [exact Hrows|].
  split; [|split].
  - rewrite map_map. apply map_ext_in. intros r Hr.
    rewrite List.Forall_forall in Hnew.
    destruct (Hnew r Hr) as (i & p' & v' & Hi & Hrow).
    destruct i as [|i]; [|destruct i; discriminate].
    destruct Hrow as (_ & _ & _ & _ & _ & Him & _).
    rewrite Him. unfold reference. do 2 f_equal. lia.
  - apply List.Forall_forall. intros k Hk. apply in_map_iff in Hk.
    destruct Hk as (r & <- & _). lia.
  - intros i j a b _ Ha Hb.
    rewrite list_lookup_fmap in Ha, Hb.
    destruct (new !! i); [|discriminate]. destruct (new !! j); [|discriminate].
    simpl in Ha, Hb. inversion Ha. inversion Hb. lia.
Qed.

Lemma ordered_fold {A : Type} (f : State -> A -> State) (l : list A) :
  Forall (fun x => forall st, ordered_effect st (f st x)) l ->
  forall st, ordered_effect st (fold_left f l st).
Proof.
  induction 1 as [|x l Hx _ IH]; intros st; simpl; [apply ordered_refl|].
  eapply ordered_trans; [apply Hx|apply IH].
Qed.

Lemma ordered_recurse (folder : Element) :
  forall path st, ordered_effect st (recurse folder path st).
Proof.
  induction folder as [t a x l cs IHcs] using Element_nested_ind.
  intros path st. rewrite recurse_unfold.
  set (np := new_path_of (mkElement t a x l cs) path).
  eapply ordered_trans; [apply ordered_log|].
  eapply ordered_trans;
    [apply (ordered_fold (view_step np))
    |apply (ordered_fold (fun st child => recurse child np st))].
  - apply List.Forall_forall. intros v _ st'. apply ordered_view_step.
  - apply Forall_findall. simpl.
    eapply List.Forall_impl; [|exact IHcs]. simpl. intros c Hc st'. apply Hc.
Qed.

(** X4. The accepted rows come in the order their views were discovered:
    the image references down the row list are those of a nondecreasing
    list of sequence numbers, each between 1 and the number of view nodes
    of the document. *)
Theorem X4_rows_in_discovery_order (root : Element) :
  exists ks : list nat,
    map col_image_path (fst (process_xml root))
    = map (fun k => Some (image_file_name IMAGE_FILE_PREFIX k)) ks /\
    Forall (fun k => 1 <= k <= count_document_views root) ks /\
    (forall (i j a b : nat),
        i <= j -> ks !! i = Some a -> ks !! j = Some b -> a <= b).
Proof.
  assert (Ho : ordered_effect initial_state (walk root)).
  { unfold walk. apply ordered_fold. apply List.Forall_forall.
    intros vf _ st. apply ordered_recurse. }
  destruct Ho as (_ & new & ks & Hrows & Hmap & Hb & Hs).
  exists ks. unfold process_xml. simpl in *. rewrite Hrows. split; [exact Hmap|].
  split; [|exact Hs].
  destruct (walk_effect_walk root) as (Hc & _). simpl in Hc.
  rewrite length_discovered_views in Hc.
  eapply List.Forall_impl; [|exact Hb]. simpl. intros k Hk. lia.
Qed.

(** ** The date string can be read back *)

Lemma datetime_new_ok (y m d : Z) (dt : datetime) :
  datetime_new y m d = ok dt -> dt = mkDatetime y m d /\ valid_date y m d.
Proof.
  unfold datetime_new. destruct (negb _); [discriminate|].
  destruct (Z.ltb_spec y 1); [discriminate|].
  destruct (Z.ltb_spec 9999 y); [discriminate|].
  destruct (Z.ltb_spec m 1); [discriminate|].
  destruct (Z.ltb_spec 12 m); [discriminate|].
  destruct (Z.ltb_spec d 1); [discriminate|].
  destruct (Z.ltb_spec (days_in_month y m) d); [discriminate|].
  simpl. intros Heq. inversion Heq. split; [reflexivity|]. unfold valid_date. lia.
Qed.

Lemma str_Z_nonneg (z : Z) : (0 <= z)%Z -> str_Z z = str_nat (Z.to_nat z).
Proof. intros H. unfold str_Z. destruct (Z.ltb_spec z 0); [lia|reflexivity]. Qed.

Lemma digits_value_padded (width n : nat) (c : ascii) (rest : string) :
  digit_of c = None ->
  digits_value 0 (zfill width (str_nat n) +:+ String c "" +:+ rest) = n.
Proof.
  intros Hc. change (String c "" +:+ rest) with (String c rest).
  rewrite zfill_str_nat, append_assoc, digits_value_zeros.
  unfold str_nat. rewrite digits_value_uint. cbn [digits_value]. rewrite Hc.
  apply DecimalNat.Unsigned.of_to.
Qed.

Lemma digits_value_padded_end (width n : nat) :
  digits_value 0 (zfill width (str_nat n)) = n.
Proof.
  rewrite <- (append_nil_r (zfill width (str_nat n))).
  rewrite zfill_str_nat, append_assoc, digits_value_zeros.
  unfold str_nat. rewrite digits_value_uint. apply DecimalNat.Unsigned.of_to.
Qed.

Lemma after_slash_uint (d : Decimal.uint) (rest : string) :
  after_slash (NilEmpty.string_of_uint d +:+ "/" +:+ rest) = rest.
Proof.
  induction d as [|d IH|d IH|d IH|d IH|d IH|d IH|d IH|d IH|d IH|d IH];
    [reflexivity|..];
    cbn [NilEmpty.string_of_uint]; rewrite append_cons; exact IH.
Qed.

Lemma after_slash_padded (width n : nat) (rest : string) :
  after_slash (zfill width (str_nat n) +:+ "/" +:+ rest) = rest.
Proof.
  rewrite zfill_str_nat, append_assoc.
  induction (width - String.length (str_nat n)) as [|k IH].
  - apply after_slash_uint.
  - cbn [string_repeat]. rewrite append_cons. exact IH.
Qed.

Lemma length_str_nat_4 (n : nat) : n < 100 * 100 -> String.length (str_nat n) <= 4.
Proof.
  assert (Hall : forallb (fun n => (String.length (str_nat n) <=? 4)%nat) (seq 0 (100 * 100)) = true)
    by (vm_compute; reflexivity).
  intros Hn. rewrite forallb_forall in Hall.
  apply Nat.leb_le, Hall, in_seq. lia.
Qed.

Lemma length_str_nat_2 (n : nat) : n < 100 -> String.length (str_nat n) <= 2.
Proof.
  assert (Hall : forallb (fun n => (String.length (str_nat n) <=? 2)%nat) (seq 0 100) = true)
    by (vm_compute; reflexivity).
  intros Hn. rewrite forallb_forall in Hall.
  apply Nat.leb_le, Hall, in_seq. lia.
Qed.

(** X5. Whenever the date normalizer returns a string, it has logged
    nothing and touched none of the shared objects; the descriptor holds a
    date node whose three fields were read as integers forming a date
    [datetime] accepts, with a year of 1900 or more; the string has exactly
    ten characters; and reading the three numbers between its slashes gives
    back the year, the month and the day. *)
Theorem X5_date_string_reads_back
    (created : Element) (st st' : State) (s : string) :
  parse_createddate (Some created) st = (Some s, st') ->
  st' = st /\
  String.length s = 10 /\
  exists (dn : Element) (y m d : Z),
    find "date" created = Some dn /\
    int_attr dn "year" = ok y /\ int_attr dn "month" = ok m /\ int_attr dn "day" = ok d /\
    (1900 <= y)%Z /\ valid_date y m d /\
    decode_ymd s = (Z.to_nat y, Z.to_nat m, Z.to_nat d).
Proof.
  unfold parse_createddate.
  destruct (parse_createddate_try (Some created)) as [e|r] eqn:Htry; [discriminate|].
  intros H. inversion H; subst. split; [reflexivity|].
  unfold parse_createddate_try in Htry.
  destruct (find "date" created) as [dn|] eqn:Hdn; [|discriminate].
  destruct (int_attr dn "year") as [ey|y] eqn:Hy; [discriminate|].
  destruct (int_attr dn "month") as [em|m] eqn:Hm; [discriminate|].
  destruct (int_attr dn "day") as [ed|d] eqn:Hd; [discriminate|].
  simpl in Htry.
  destruct (Z.ltb_spec y 1900); [discriminate|].
  destruct (Z.eqb_spec m 0); [discriminate|].
  destruct (Z.eqb_spec d 0); [discriminate|].
  simpl in Htry.
  destruct (datetime_new y m d) as [e|dt] eqn:Hdt; [discriminate|].
  simpl in Htry. inversion Htry; subst. clear Htry H.
  destruct (datetime_new_ok y m d dt Hdt) as (-> & Hvalid).
  pose proof Hvalid as (Hyr & Hmr & Hdr).
  pose proof (days_in_month_bound y m) as Hdim.
  unfold strftime_ymd. simpl.
  rewrite !str_Z_nonneg by lia.
  split.
  - rewrite !length_append, !length_zfill_str_nat. simpl.
    pose proof (length_str_nat_4 (Z.to_nat y)).
    pose proof (length_str_nat_2 (Z.to_nat m)).
    pose proof (length_str_nat_2 (Z.to_nat d)). lia.
  - exists dn, y, m, d. repeat split; try assumption; try lia.
    unfold decode_ymd.
    rewrite (digits_value_padded 4 (Z.to_nat y) "/") by reflexivity.
    rewrite !after_slash_padded.
    rewrite (digits_value_padded 2 (Z.to_nat m) "/") by reflexivity.
    rewrite digits_value_padded_end. reflexivity.
Qed.

(** The theorem at the descriptor of 29 February 2024. *)
Lemma X5_date_string_reads_back_witness :
  initial_state = initial_state /\
  String.length "2024/02/29" = 10 /\
  exists (dn : Element) (y m d : Z),
    find "date" (createddate_element "2024" "02" "29") = Some dn /\
    int_attr dn "year" = ok y /\ int_attr dn "month" = ok m /\ int_attr dn "day" = ok d /\
    (1900 <= y)%Z /\ valid_date y m d /\
    decode_ymd "2024/02/29" = (Z.to_nat y, Z.to_nat m, Z.to_nat d).
Proof.
  apply (X5_date_string_reads_back (createddate_element "2024" "02" "29")
           initial_state initial_state "2024/02/29").
  reflexivity.
Defined.

(** ** The echoing log *)

Lemma echo_children_loop_fold (f : Echo.Session -> Element -> Echo.Session)
    (cs : list Element) (ss : Echo.Session) :
  (fix children_loop (cs : list Element) (ss : Echo.Session) : Echo.Session :=
     match cs with
     | [] => ss
     | child :: cs' =>
         if has_tag "viewfolder" child
         then children_loop cs' (f ss child)
         else children_loop cs' ss
     end) cs ss
  = fold_left f (List.filter (has_tag "viewfolder") cs) ss.
Proof.
  revert ss. induction cs as [|c cs IHcs]; intros ss; simpl.
  - reflexivity.
  - destruct (has_tag "viewfolder" c); simpl; apply IHcs.
Qed.

Lemma echo_unfold (sd : bool) (folder : Element) (path : list string) (ss : Echo.Session) :
  Echo.recurse sd folder path ss
  = fold_left (fun ss child => Echo.recurse sd child (new_path_of folder path) ss)
      (findall "viewfolder" folder)
      (fold_left (Echo.view_step sd (new_path_of folder path)) (findall "view" folder)
         (Echo.log sd (folder_line (new_path_of folder path)) ss)).
Proof.
  destruct folder as [t a x l cs]. unfold findall at 1. simpl.
  rewrite echo_children_loop_fold. reflexivity.
Qed.

Lemma mirrors_log (sd : bool) (m : string) ss st :
  mirrors sd ss st -> mirrors sd (Echo.log sd m ss) (log m st).
Proof.
  intros (<- & Hc). split; [reflexivity|].
  simpl. rewrite Hc. destruct sd; reflexivity.
Qed.

Lemma mirrors_add_row (sd : bool) (row : Row) ss st :
  mirrors sd ss st -> mirrors sd (Echo.add_row sd row ss) (add_row row st).
Proof.
  intros H. pose proof H as (Hs & Hc). unfold Echo.add_row, add_row.
  rewrite Hs. change (col_guid row, col_comment_id row) with (row_key row).
  destruct (decide (row_key row ∉ seen st)).
  - split; [reflexivity|]. simpl. rewrite Hc. reflexivity.
  - apply mirrors_log, H.
Qed.

Lemma mirrors_parse_createddate (sd : bool) created ss st :
  mirrors sd ss st ->
  fst (Echo.parse_createddate sd created ss) = fst (parse_createddate created st) /\
  mirrors sd (snd (Echo.parse_createddate sd created ss)) (snd (parse_createddate created st)).
Proof.
  intros H. unfold Echo.parse_createddate, parse_createddate.
  destruct (parse_createddate_try created); simpl.
  - split; [reflexivity|apply mirrors_log, H].
  - split; [reflexivity|exact H].
Qed.

Lemma mirrors_comment_step (sd : bool) p vn g im ss st c :
  mirrors sd ss st ->
  mirrors sd (Echo.comment_step sd p vn g im ss c) (comment_step p vn g im st c).
Proof.
  intros H. unfold Echo.comment_step, comment_step.
  assert (Hd : fst (match find "createddate" c with
                    | Some _ => Echo.parse_createddate sd (find "createddate" c) ss
                    | None => (None, ss)
                    end)
               = fst (match find "createddate" c with
                      | Some _ => parse_createddate (find "createddate" c) st
                      | None => (None, st)
                      end) /\
               mirrors sd
                 (snd (match find "createddate" c with
                       | Some _ => Echo.parse_createddate sd (find "createddate" c) ss
                       | None => (None, ss)
                       end))
                 (snd (match find "createddate" c with
                       | Some _ => parse_createddate (find "createddate" c) st
                       | None => (None, st)
                       end))).
  { destruct (find "createddate" c); [apply mirrors_parse_createddate, H|].
    split; [reflexivity|exact H]. }
  destruct (match find "createddate" c with
            | Some _ => Echo.parse_createddate sd (find "createddate" c) ss
            | None => (None, ss)
            end) as [dl ss1].
  destruct (match find "createddate" c with
            | Some _ => parse_createddate (find "createddate" c) st
            | None => (None, st)
            end) as [dr st1].
  simpl in Hd. destruct Hd as [-> H1].
  apply mirrors_add_row, mirrors_log, H1.
Qed.

Lemma mirrors_fold {A : Type} (sd : bool)
    (fe : Echo.Session -> A -> Echo.Session) (f : State -> A -> State) (l : list A) :
  Forall (fun x => forall ss st, mirrors sd ss st -> mirrors sd (fe ss x) (f st x)) l ->
  forall ss st, mirrors sd ss st -> mirrors sd (fold_left fe l ss) (fold_left f l st).
Proof.
  induction 1 as [|x l Hx _ IH]; intros ss st H; simpl; [exact H|].
  apply IH, Hx, H.
Qed.

Lemma mirrors_view_step (sd : bool) p ss st v :
  mirrors sd ss st -> mirrors sd (Echo.view_step sd p ss v) (view_step p st v).
Proof.
  intros H. pose proof H as (Hs & Hc). unfold Echo.view_step, view_step.
  set (ss0 := Echo.mkSession
                (mkState (rows (Echo.shared ss)) (seen (Echo.shared ss))
                   (S (view_counter (Echo.shared ss))) (debug_lines (Echo.shared ss)))
                (Echo.console ss)).
  assert (H0 : mirrors sd ss0 (bump_counter st)).
  { subst ss0. rewrite Hs. split; [reflexivity|]. simpl. exact Hc. }
  assert (Hk : view_counter (Echo.shared ss0) = view_counter (bump_counter st)).
  { destruct H0 as (-> & _). reflexivity. }
  rewrite Hk.
  destruct (find "comments" v) as [cs|].
  - apply mirrors_fold; [|apply mirrors_log, H0].
    apply List.Forall_forall. intros c _ ss' st'. apply mirrors_comment_step.
  - apply mirrors_add_row, mirrors_log, mirrors_log, H0.
Qed.

Lemma mirrors_recurse (sd : bool) (folder : Element) :
  forall path ss st,
    mirrors sd ss st -> mirrors sd (Echo.recurse sd folder path ss) (recurse folder path st).
Proof.
  induction folder as [t a x l cs IHcs] using Element_nested_ind.
  intros path ss st H. rewrite echo_unfold, recurse_unfold.
  apply mirrors_fold.
  - apply Forall_findall. simpl.
    eapply List.Forall_impl; [|exact IHcs]. simpl. intros c Hc ss' st'. apply Hc.
  - apply mirrors_fold.
    + apply List.Forall_forall. intros v _ ss' st'. apply mirrors_view_step.
    + apply mirrors_log, H.
Qed.

Lemma mirrors_walk (sd : bool) (root : Element) :
  mirrors sd (Echo.walk sd root) (walk root).
Proof.
  unfold Echo.walk, walk. apply mirrors_fold.
  - apply List.Forall_forall. intros vf _ ss st. apply mirrors_recurse.
  - split; [reflexivity|]. destruct sd; reflexivity.
Qed.

(** X6. [process_xml] on a file that parses returns the rows and the
    diagnostic lines of the walk whether or not [stream_debug] is set, and
    prints exactly those diagnostic lines, in order, when it is set and
    nothing when it is not. *)
Theorem X6_echo_prints_the_log
    (w : Outside) (xml_path : string) (stream_debug : bool) (root : Element) :
  ET_parse w xml_path = inr root ->
  process_xml_path w xml_path stream_debug
  = ((if stream_debug then snd (process_xml root) else []), inr (process_xml root)).
Proof.
  intros Hparse. unfold process_xml_path. rewrite Hparse.
  destruct (mirrors_walk stream_debug root) as (Hs & Hc).
  rewrite Hc, Hs. reflexivity.
Qed.

(** The theorem at the sample document, echo on. *)
Lemma X6_echo_prints_the_log_witness :
  process_xml_path sample_outside "model.xml" true
  = (snd (process_xml sample_document), inr (process_xml sample_document)).
Proof.
  apply (X6_echo_prints_the_log sample_outside "model.xml" true sample_document).
  reflexivity.
Defined.

(** ** Input resolution *)

(** X7. Whatever way the path was obtained (argument, dialog or typed
    line), a path that [ensure_xml_path] returns is a file; on the way it
    printed nothing or only the prompt; and a non-empty argument, when
    there is one, is the path returned, with nothing printed. *)
Theorem X7_resolved_path_is_a_file
    (w : Outside) (cli_path : option string) (printed : list string) (p : string) :
  ensure_xml_path w cli_path = (printed, inr p) ->
  is_file w p = true /\
  (printed = [] \/ printed = ["Please enter the path to the XML file:"]) /\
  (forall (c : ascii) (s : string),
      cli_path = Some (String c s) -> p = Path w (String c s) /\ printed = []).
Proof.
  unfold ensure_xml_path. intros H.
  assert (Hrest :
    match choose_file_with_dialog w with
    | Some selected =>
        if is_file w selected then ([], inr selected)
        else ([], inl (FileNotFoundError ("Selected file not found: " +:+ selected)))
    | None =>
        match input w with
        | None => (["Please enter the path to the XML file:"],
                   inl (EOFError "EOF when reading a line"))
        | Some line =>
            match typed_path line with
            | EmptyString =>
                (["Please enter the path to the XML file:"],
                 inl (Builtin (ValueError "No XML file selected.")))
            | String c s =>
                if is_file w (Path w (String c s))
                then (["Please enter the path to the XML file:"], inr (Path w (String c s)))
                else (["Please enter the path to the XML file:"],
                      inl (FileNotFoundError
                             ("XML file not found: " +:+ Path w (String c s))))
            end
        end
    end = (printed, inr p) ->
    is_file w p = true /\
    (printed = [] \/ printed = ["Please enter the path to the XML file:"])).
  { destruct (choose_file_with_dialog w) as [selected|].
    - destruct (is_file w selected) eqn:Hf; intros Heq; inversion Heq; subst. auto.
    - destruct (input w) as [line|]; [|discriminate].
      destruct (typed_path line) as [|c s]; [discriminate|].
      destruct (is_file w (Path w (String c s))) eqn:Hf; intros Heq; inversion Heq; subst.
      auto. }
  destruct cli_path as [[|c s]|].
  - destruct (Hrest H) as (Hf & Hp). split; [exact Hf|]. split; [exact Hp|].
    intros c' s' Heq. discriminate.
  - destruct (is_file w (Path w (String c s))) eqn:Hf; inversion H; subst.
    split; [exact Hf|]. split; [left; reflexivity|].
    intros c' s' Heq. inversion Heq; subst. auto.
  - destruct (Hrest H) as (Hf & Hp). split; [exact Hf|]. split; [exact Hp|].
    intros c' s' Heq. discriminate.
Qed.

(** The theorem at the argument [model.xml]. *)
Lemma X7_resolved_path_is_a_file_witness :
  is_file sample_outside "model.xml" = true /\
  (@nil string = [] \/ @nil string = ["Please enter the path to the XML file:"]) /\
  (forall (c : ascii) (s : string),
      Some "model.xml" = Some (String c s) ->
      "model.xml" = Path sample_outside (String c s) /\ @nil string = []).
Proof.
  apply (X7_resolved_path_is_a_file sample_outside (Some "model.xml") [] "model.xml").
  reflexivity.
Defined.

(** *** The typed line *)

Lemma forallb_rev_true {A : Type} (f : A -> bool) (l : list A) :
  forallb f l = true -> forallb f (rev l) = true.
Proof.
  rewrite !forallb_forall. intros H x Hx. apply H, in_rev, Hx.
Qed.

Lemma last_in_cons {A : Type} (a : A) (l : list A) : In (List.last l a) (a :: l).
Proof.
  induction l as [|b l IH]; [left; reflexivity|].
  destruct l as [|c l'].
  - right. left. reflexivity.
  - change (List.last (b :: c :: l') a) with (List.last (c :: l') a).
    destruct IH as [IH|IH]; [left; exact IH|right; right; exact IH].
Qed.

Lemma forallb_last {A : Type} (f : A -> bool) (a : A) (l : list A) :
  forallb f (a :: l) = true -> f (List.last l a) = true.
Proof.
  intros H. rewrite forallb_forall in H. apply H, last_in_cons.
Qed.

Section trimming.
Variable P : ascii -> bool.
Variable drop : list ascii -> list ascii.
Hypothesis drop_nil : drop [] = [].
Hypothesis drop_cons : forall c l, drop (c :: l) = if P c then drop l else c :: l.

Lemma drop_all (l : list ascii) : forallb P l = true -> drop l = [].
Proof.
  induction l as [|c l IH]; simpl; intros H; [exact drop_nil|].
  apply andb_true_iff in H. destruct H as [Hc Hl].
  rewrite drop_cons, Hc. auto.
Qed.

Lemma drop_app (pre l : list ascii) : forallb P pre = true -> drop (pre ++ l) = drop l.
Proof.
  induction pre as [|c pre IH]; simpl; intros H; [reflexivity|].
  apply andb_true_iff in H. destruct H as [Hc Hl].
  rewrite drop_cons, Hc. auto.
Qed.

Lemma trim_all (l : list ascii) : forallb P l = true -> rev (drop (rev (drop l))) = [].
Proof. intros H. rewrite (drop_all l H). simpl. rewrite drop_nil. reflexivity. Qed.

Lemma trim_middle (pre post : list ascii) (a : ascii) (l : list ascii) :
  forallb P pre = true -> forallb P post = true ->
  P a = false -> P (List.last l a) = false ->
  rev (drop (rev (drop (pre ++ (a :: l) ++ post)))) = a :: l.
Proof.
  intros Hpre Hpost Ha Hb.
  rewrite (drop_app pre _ Hpre). simpl. rewrite drop_cons, Ha.
  assert (Hsplit : a :: l = removelast (a :: l) ++ [List.last (a :: l) a]).
  { apply app_removelast_last. discriminate. }
  assert (Hlast : List.last (a :: l) a = List.last l a).
  { destruct l; reflexivity. }
  rewrite Hlast in Hsplit.
  change (a :: l ++ post) with ((a :: l) ++ post).
  rewrite rev_app_distr.
  rewrite drop_app by (apply forallb_rev_true; exact Hpost).
  rewrite Hsplit at 1. rewrite rev_app_distr. simpl.
  rewrite drop_cons, Hb. simpl. rewrite rev_involutive. symmetry. exact Hsplit.
Qed.
End trimming.

Lemma strip_middle (pre post : list ascii) (a : ascii) (l : list ascii) :
  forallb is_space pre = true -> forallb is_space post = true ->
  is_space a = false -> is_space (List.last l a) = false ->
  strip (pre ++ (a :: l) ++ post) = a :: l.
Proof. apply (trim_middle is_space lstrip); reflexivity. Qed.

Lemma strip_char_middle (q : ascii) (pre post : list ascii) (a : ascii) (l : list ascii) :
  forallb (fun c => Ascii.eqb c q) pre = true ->
  forallb (fun c => Ascii.eqb c q) post = true ->
  Ascii.eqb a q = false -> Ascii.eqb (List.last l a) q = false ->
  strip_char q (pre ++ (a :: l) ++ post) = a :: l.
Proof. apply (trim_middle (fun c => Ascii.eqb c q) (lstrip_char q)); reflexivity. Qed.

Lemma list_ascii_of_append (s t : string) :
  list_ascii_of_string (s +:+ t) = list_ascii_of_string s ++ list_ascii_of_string t.
Proof.
  induction s as [|c s IH]; [reflexivity|].
  rewrite append_cons. simpl. rewrite IH. reflexivity.
Qed.

Lemma typed_path_clean (pre post p : string) :
  all_blank pre = true -> all_blank post = true -> clean p = true ->
  typed_path (pre +:+ p +:+ post) = p.
Proof.
  unfold all_blank, clean, typed_path. intros Hpre Hpost Hp.
  rewrite !list_ascii_of_append.
  destruct (list_ascii_of_string p) as [|a l] eqn:Hl; [discriminate|].
  apply andb_true_iff in Hp. destruct Hp as [Ha Hb].
  unfold edge_ok in Ha, Hb. apply andb_true_iff in Ha, Hb.
  destruct Ha as [Ha1 Ha2], Hb as [Hb1 Hb2].
  apply negb_true_iff in Ha1, Ha2, Hb1, Hb2.
  rewrite strip_middle by assumption.
  rewrite <- (app_nil_r (a :: l)). change (a :: l) with ([] ++ (a :: l)) at 1.
  rewrite <- app_assoc.
  rewrite strip_char_middle by (try reflexivity; assumption).
  rewrite <- Hl. apply string_of_list_ascii_of_string.
Qed.

Lemma typed_path_quoted (pre post p : string) :
  all_blank pre = true -> all_blank post = true -> clean p = true ->
  typed_path (pre +:+ String quote_char (p +:+ String quote_char post)) = p.
Proof.
  unfold all_blank, clean, typed_path. intros Hpre Hpost Hp.
  rewrite list_ascii_of_append. simpl. rewrite list_ascii_of_append. simpl.
  destruct (list_ascii_of_string p) as [|a l] eqn:Hl; [discriminate|].
  apply andb_true_iff in Hp. destruct Hp as [Ha Hb].
  unfold edge_ok in Ha, Hb. apply andb_true_iff in Ha, Hb.
  destruct Ha as [_ Ha2], Hb as [_ Hb2].
  apply negb_true_iff in Ha2, Hb2.
  assert (E : list_ascii_of_string pre ++
              quote_char :: (a :: l) ++ quote_char :: list_ascii_of_string post
              = list_ascii_of_string pre ++
                (quote_char :: ((a :: l) ++ [quote_char])) ++ list_ascii_of_string post).
  { simpl. rewrite <- app_assoc. reflexivity. }
  rewrite E.
  rewrite strip_middle; try assumption; try reflexivity.
  - change (quote_char :: (a :: l) ++ [quote_char])
      with ([quote_char] ++ (a :: l) ++ [quote_char]).
    rewrite strip_char_middle by (try reflexivity; assumption).
    rewrite <- Hl. apply string_of_list_ascii_of_string.
  - rewrite last_last. reflexivity.
Qed.

Lemma typed_path_blank (pre quotes post : string) :
  all_blank pre = true -> all_quotes quotes = true -> all_blank post = true ->
  typed_path (pre +:+ quotes +:+ post) = "".
Proof.
  unfold all_blank, all_quotes, typed_path. intros Hpre Hq Hpost.
  rewrite !list_ascii_of_append.
  destruct (list_ascii_of_string quotes) as [|a l] eqn:Hl.
  - simpl. unfold strip.
    rewrite (trim_all is_space lstrip) by
      (try reflexivity; rewrite forallb_app, Hpre, Hpost; reflexivity).
    reflexivity.
  - assert (Ha : Ascii.eqb a quote_char = true).
    { simpl in Hq. apply andb_true_iff in Hq. apply Hq. }
    assert (Hb : Ascii.eqb (List.last l a) quote_char = true).
    { apply (forallb_last (fun c => Ascii.eqb c quote_char)), Hq. }
    apply Ascii.eqb_eq in Ha, Hb.
    rewrite strip_middle; try assumption.
    + unfold strip_char.
      rewrite (trim_all (fun c => Ascii.eqb c quote_char) (lstrip_char quote_char))
        by (try reflexivity; exact Hq).
      reflexivity.
    + rewrite Ha. reflexivity.
    + rewrite Hb. reflexivity.
Qed.

Lemma ensure_xml_path_typed (w : Outside) (cli_path : option string) (line : string) :
  cli_path = None \/ cli_path = Some "" ->
  choose_file_with_dialog w = None ->
  input w = Some line ->
  ensure_xml_path w cli_path
  = match typed_path line with
    | EmptyString =>
        ([prompt_line], inl (Builtin (ValueError "No XML file selected.")))
    | String c s =>
        if is_file w (Path w (String c s))
        then ([prompt_line], inr (Path w (String c s)))
        else ([prompt_line],
              inl (FileNotFoundError ("XML file not found: " +:+ Path w (String c s))))
    end.
Proof.
  intros Hcli Hdialog Hinput. unfold ensure_xml_path.
  destruct Hcli as [-> | ->]; rewrite Hdialog, Hinput; reflexivity.
Qed.



(** ** [main] *)

Lemma process_xml_path_parsed (w : Outside) (p : string) (sd : bool) (root : Element) :
  ET_parse w p = inr root ->
  process_xml_path w p sd
  = ((if sd then snd (process_xml root) else []), inr (process_xml root)).
Proof.
  intros Hparse. unfold process_xml_path. rewrite Hparse.
  destruct (mirrors_walk sd root) as (Hs & Hc). rewrite Hc, Hs. reflexivity.
Qed.

Lemma process_xml_path_failed (w : Outside) (p : string) (sd : bool) (exc : exception) :
  ET_parse w p = inl exc -> process_xml_path w p sd = ([], inl exc).
Proof. intros Hparse. unfold process_xml_path. rewrite Hparse. reflexivity. Qed.

(** X9. [main] ends in one of two ways.  With status 0: the path was
    resolved, the file parsed, both output files hold the texts made from
    the rows and the diagnostic lines of the walk, and the last line
    printed is the completion message.  With status 1: the path was not
    resolved or the file did not parse, no file was written or changed, and
    the last line printed is the error line of the exception.  Either way
    every file other than the two outputs is left as it was. *)
Theorem X9_main_writes_both_files_or_none
    (w : Outside) (path : option string) (stream_debug : bool)
    (files files' : gmap string string) (printed : list string) (status : nat) :
  main w path stream_debug files = (files', printed, status) ->
  ((status = 0 /\
    exists (xml_path : string) (root : Element),
      snd (ensure_xml_path w path) = inr xml_path /\
      ET_parse w xml_path = inr root /\
      files' !! "navisworks_views_comments.csv" = Some (csv_text (fst (process_xml root))) /\
      files' !! "debug.txt" = Some (debug_text (snd (process_xml root))) /\
      last printed
      = Some "✅ Processing complete. Check navisworks_views_comments.csv and debug.txt")
   \/
   (status = 1 /\ files' = files /\
    exists exc : exception,
      (snd (ensure_xml_path w path) = inl exc \/
       exists xml_path, snd (ensure_xml_path w path) = inr xml_path /\
                        ET_parse w xml_path = inl exc) /\
      last printed = Some ("❌ Error: " +:+ str_exception exc))) /\
  (forall name : string,
      name <> "navisworks_views_comments.csv" -> name <> "debug.txt" ->
      files' !! name = files !! name).
Proof.
  unfold main.
  destruct (ensure_xml_path w path) as [printed0 [exc|p]] eqn:Hensure; simpl.
  - intros H. inversion H; subst. split; [|reflexivity].
    right. split; [reflexivity|]. split; [reflexivity|].
    exists exc. split; [left; reflexivity|]. apply last_snoc.
  - destruct (ET_parse w p) as [exc|root] eqn:Hparse.
    + rewrite (process_xml_path_failed w p stream_debug exc Hparse).
      intros H. inversion H; subst. split; [|reflexivity].
      right. split; [reflexivity|]. split; [reflexivity|].
      exists exc. split; [right; exists p; split; [reflexivity|exact Hparse]|].
      simpl. apply last_snoc.
    + rewrite (process_xml_path_parsed w p stream_debug root Hparse).
      destruct (process_xml root) as [rws dl] eqn:Hpr. simpl.
      unfold process_xml in Hpr. inversion Hpr as [[Hrws Hdl]]. clear Hpr.
      intros H. inversion H; subst. split.
      * left. split; [reflexivity|]. exists p, root.
        split; [reflexivity|]. split; [exact Hparse|].
        unfold write_outputs. simpl. split; [|split].
        -- rewrite lookup_insert_ne by discriminate. apply lookup_insert_eq.
        -- apply lookup_insert_eq.
        -- rewrite app_assoc. apply last_snoc.
      * intros name Hcsv Hdebug. unfold write_outputs.
        rewrite !lookup_insert_ne by (try (intros E; apply Hdebug; symmetry; exact E);
                                      try (intros E; apply Hcsv; symmetry; exact E)).
        reflexivity.
Qed.

(** The theorem at a run on [model.xml] with the echo on: a file that is
    not one of the two outputs stays absent. *)
Lemma X9_main_writes_both_files_or_none_witness :
  fst (fst (main sample_outside (Some "model.xml") true ∅)) !! "notes.txt" = None.
Proof.
  assert (Heq : main sample_outside (Some "model.xml") true ∅
                = (fst (fst (main sample_outside (Some "model.xml") true ∅)),
                   snd (fst (main sample_outside (Some "model.xml") true ∅)),
                   snd (main sample_outside (Some "model.xml") true ∅))).
  { destruct (main sample_outside (Some "model.xml") true ∅) as [[a b] c]. reflexivity. }
  rewrite (proj2 (X9_main_writes_both_files_or_none _ _ _ _ _ _ _ Heq) "notes.txt")
    by discriminate.
  reflexivity.
Defined.

(** ** The CSV text reads back *)

Lemma csv_special_false (c : ascii) :
  csv_special c = false ->
  Ascii.eqb c "," = false /\ Ascii.eqb c quote_char = false /\
  Ascii.eqb c CR = false /\ Ascii.eqb c LF = false.
Proof.
  unfold csv_special. intros H.
  apply orb_false_iff in H. destruct H as [H H4].
  apply orb_false_iff in H. destruct H as [H H3].
  apply orb_false_iff in H. destruct H as [H1 H2]. auto.
Qed.

Lemma scan_unquoted_char (c : ascii) (field : string) (record : list string) (s : string) :
  csv_special c = false ->
  csv_scan Unquoted field record (String c s)
  = csv_scan Unquoted (field +:+ String c "") record s.
Proof.
  intros H. destruct (csv_special_false c H) as (H1 & _ & H3 & H4).
  cbn [csv_scan]. rewrite H1, H3, H4. reflexivity.
Qed.

Lemma scan_start_char (c : ascii) (record : list string) (s : string) :
  csv_special c = false ->
  csv_scan FieldStart "" record (String c s) = csv_scan Unquoted (String c "") record s.
Proof.
  intros H. destruct (csv_special_false c H) as (H1 & H2 & H3 & H4).
  cbn [csv_scan]. rewrite H1, H2, H3, H4. reflexivity.
Qed.

Lemma scan_quoted_char (c : ascii) (field : string) (record : list string) (s : string) :
  Ascii.eqb c quote_char = false ->
  csv_scan Quoted field record (String c s)
  = csv_scan Quoted (field +:+ String c "") record s.
Proof. intros H. cbn [csv_scan]. rewrite H. reflexivity. Qed.

Lemma scan_quoted_quote (field : string) (record : list string) (s : string) :
  csv_scan Quoted field record (String quote_char (String quote_char s))
  = csv_scan Quoted (field +:+ String quote_char "") record s.
Proof. reflexivity. Qed.

Lemma append_snoc (s : string) (c : ascii) (t : string) :
  (s +:+ String c "") +:+ t = s +:+ String c t.
Proof. rewrite append_assoc. reflexivity. Qed.

Lemma scan_unquoted (s : string) :
  forall (field : string) (record : list string) (rest : string),
    csv_needs_quotes s = false ->
    csv_scan Unquoted field record (s +:+ rest)
    = csv_scan Unquoted (field +:+ s) record rest.
Proof.
  induction s as [|c s IH]; intros field record rest H.
  - rewrite append_nil_r. reflexivity.
  - simpl in H. apply orb_false_iff in H. destruct H as [Hc Hs].
    rewrite append_cons, scan_unquoted_char by exact Hc.
    rewrite IH by exact Hs. rewrite append_snoc. reflexivity.
Qed.

Lemma scan_quoted (s : string) :
  forall (field : string) (record : list string) (rest : string),
    csv_scan Quoted field record (csv_double_quotes s +:+ String quote_char rest)
    = csv_scan QuoteSeen (field +:+ s) record rest.
Proof.
  induction s as [|c s IH]; intros field record rest.
  - rewrite append_nil_r. reflexivity.
  - cbn [csv_double_quotes]. destruct (Ascii.eqb c quote_char) eqn:Hc.
    + apply Ascii.eqb_eq in Hc. subst c.
      rewrite !append_cons, scan_quoted_quote, IH, append_snoc. reflexivity.
    + rewrite append_cons, scan_quoted_char by exact Hc.
      rewrite IH, append_snoc. reflexivity.
Qed.

(** One field followed by a comma. *)
Lemma scan_field_comma (f : option string) (record : list string) (rest : string) :
  csv_scan FieldStart "" record (csv_field f +:+ String "," rest)
  = csv_scan FieldStart "" (record ++ shown [f]) rest.
Proof.
  destruct f as [s|]; [|reflexivity].
  unfold csv_field. destruct (csv_needs_quotes s) eqn:Hq.
  - rewrite append_cons, append_assoc.
    change (csv_scan FieldStart "" record
              (String quote_char
                 (csv_double_quotes s +:+ String quote_char "" +:+ String "," rest)))
      with (csv_scan Quoted "" record
              (csv_double_quotes s +:+ String quote_char (String "," rest))).
    rewrite scan_quoted. reflexivity.
  - destruct s as [|c s]; [reflexivity|].
    simpl in Hq. apply orb_false_iff in Hq. destruct Hq as [Hc Hs].
    rewrite append_cons, scan_start_char by exact Hc.
    rewrite scan_unquoted by exact Hs. reflexivity.
Qed.

(** The last field of a record, followed by carriage return and line feed. *)
Lemma scan_field_end (f : option string) (record : list string) (rest : string) :
  record <> [] ->
  csv_scan FieldStart "" record (csv_field f +:+ String CR (String LF rest))
  = (record ++ shown [f]) :: csv_scan FieldStart "" [] rest.
Proof.
  intros Hrec.
  destruct f as [s|]; [|destruct record; [contradiction|reflexivity]].
  unfold csv_field. destruct (csv_needs_quotes s) eqn:Hq.
  - rewrite append_cons, append_assoc.
    change (csv_scan FieldStart "" record
              (String quote_char
                 (csv_double_quotes s +:+ String quote_char "" +:+
                  String CR (String LF rest))))
      with (csv_scan Quoted "" record
              (csv_double_quotes s +:+ String quote_char (String CR (String LF rest)))).
    rewrite scan_quoted. reflexivity.
  - destruct s as [|c s]; [destruct record; [contradiction|reflexivity]|].
    simpl in Hq. apply orb_false_iff in Hq. destruct Hq as [Hc Hs].
    rewrite append_cons, scan_start_char by exact Hc.
    rewrite scan_unquoted by exact Hs. reflexivity.
Qed.

Lemma join_cons2 (sep x y : string) (l : list string) :
  join sep (x :: y :: l) = x +:+ sep +:+ join sep (y :: l).
Proof. reflexivity. Qed.

Lemma scan_fields (fs : list (option string)) :
  forall (record : list string) (rest : string),
    fs <> [] -> record <> [] \/ 2 <= length fs ->
    csv_scan FieldStart "" record
      (join "," (map csv_field fs) +:+ String CR (String LF rest))
    = (record ++ shown fs) :: csv_scan FieldStart "" [] rest.
Proof.
  induction fs as [|f fs IH]; intros record rest Hne Hlen; [contradiction|].
  destruct fs as [|g fs].
  - destruct Hlen as [Hrec|Hlen]; [|simpl in Hlen; lia].
    simpl map. simpl join. apply scan_field_end, Hrec.
  - change (map csv_field (f :: g :: fs))
      with (csv_field f :: csv_field g :: map csv_field fs).
    rewrite join_cons2, !append_assoc.
    change ("," +:+ join "," (csv_field g :: map csv_field fs) +:+
            String CR (String LF rest))
      with (String "," (join "," (map csv_field (g :: fs)) +:+ String CR (String LF rest))).
    rewrite scan_field_comma, IH.
    + unfold shown. simpl. rewrite <- app_assoc. reflexivity.
    + discriminate.
    + left. destruct record; discriminate.
Qed.

Lemma csv_record_two (f g : option string) (fs : list (option string)) :
  csv_record (f :: g :: fs)
  = join "," (map csv_field (f :: g :: fs)) +:+ String CR (String LF "").
Proof.
  unfold csv_record.
  change (map csv_field (f :: g :: fs))
    with (csv_field f :: csv_field g :: map csv_field fs).
  rewrite join_cons2.
  destruct (csv_field f) as [|c s]; reflexivity.
Qed.

Lemma scan_record (f g : option string) (fs : list (option string)) (rest : string) :
  csv_scan FieldStart "" [] (csv_record (f :: g :: fs) +:+ rest)
  = shown (f :: g :: fs) :: csv_scan FieldStart "" [] rest.
Proof.
  rewrite csv_record_two, append_assoc.
  change (String CR (String LF "") +:+ rest) with (String CR (String LF rest)).
  rewrite scan_fields; [reflexivity|discriminate|right; simpl; lia].
Qed.

Lemma scan_records (rows : list Row) :
  csv_scan FieldStart "" [] (csv_records rows) = map (fun r => shown (row_fields r)) rows.
Proof.
  induction rows as [|r rows IH]; [reflexivity|].
  cbn [csv_records map]. unfold row_fields at 1. rewrite scan_record, IH. reflexivity.
Qed.

(** X10. Reading the CSV text back gives the header and then, row by row
    and in order, the eleven elements of every row handed to
    [write_outputs], with [None] read as the empty string: commas, double
    quotes and line breaks inside the elements do not break the table. *)
Theorem X10_csv_text_reads_back (rows : list Row) :
  csv_read (csv_text rows)
  = ["Category"; "Level"; "Subfolder"; "ViewName"; "GUID"; "CommentID"; "Status";
     "User"; "Body"; "CreatedDate"; "ImagePath"]
    :: map (fun r => shown (row_fields r)) rows.
Proof.
  unfold csv_read, csv_text. unfold csv_header.
  rewrite scan_record, scan_records. reflexivity.
Qed.

(** ** The diagnostic text splits back into its lines *)

Lemma split_lines_plain (s : string) :
  forall (current rest : string),
    has_line_feed s = false ->
    split_lines current (s +:+ rest) = split_lines (current +:+ s) rest.
Proof.
  induction s as [|c s IH]; intros current rest H.
  - rewrite append_nil_r. reflexivity.
  - simpl in H. apply orb_false_iff in H. destruct H as [Hc Hs].
    rewrite append_cons. cbn [split_lines]. rewrite Hc.
    rewrite IH by exact Hs. rewrite append_snoc. reflexivity.
Qed.

(** X11. As long as no diagnostic line holds a line feed, the text written
    to [debug.txt] splits at its line feeds into exactly the diagnostic
    lines, in order: one entry per line. *)
Theorem X11_debug_text_splits_back (debug_lines : list string) :
  debug_lines <> [] ->
  Forall (fun line => has_line_feed line = false) debug_lines ->
  split_lines "" (debug_text debug_lines) = debug_lines.
Proof.
  unfold debug_text. intros Hne Hall.
  induction Hall as [|l ls Hl Hls IH]; [contradiction|].
  destruct ls as [|l' ls].
  - simpl. rewrite <- (append_nil_r l) at 1.
    rewrite split_lines_plain by exact Hl. reflexivity.
  - rewrite join_cons2. rewrite split_lines_plain by exact Hl.
    change (split_lines ("" +:+ l) (String LF "" +:+ join (String LF "") (l' :: ls)))
      with (l :: split_lines "" (join (String LF "") (l' :: ls))).
    rewrite IH by discriminate. reflexivity.
Qed.

(** The theorem at the diagnostic lines of the sample document. *)
Lemma X11_debug_text_splits_back_witness :
  split_lines "" (debug_text (snd (process_xml sample_document)))
  = snd (process_xml sample_document).
Proof.
  apply (X11_debug_text_splits_back (snd (process_xml sample_document))).
  - vm_compute. discriminate.
  - vm_compute. repeat constructor.
Defined.

(** ** First occurrence wins *)

Lemma feeds_refl st : feeds [] st st.
Proof. reflexivity. Qed.

Lemma feeds_trans c1 c2 st1 st2 st3 :
  feeds c1 st1 st2 -> feeds c2 st2 st3 -> feeds (c1 ++ c2) st1 st3.
Proof.
  unfold feeds. intros H1 H2. rewrite fold_left_app, <- H1. exact H2.
Qed.

Lemma feeds_log m st : feeds [] st (log m st).
Proof. reflexivity. Qed.

Lemma feeds_add_row row st : feeds [row] st (add_row row st).
Proof.
  unfold feeds, add_row, accept. simpl.
  destruct (decide (row_key row ∉ seen st)); reflexivity.
Qed.

Lemma feeds_parse_createddate created st :
  feeds [] st (snd (parse_createddate created st)).
Proof.
  unfold parse_createddate. destruct (parse_createddate_try created); reflexivity.
Qed.

Lemma feeds_add_row_after row st0 st :
  rows st = rows st0 -> seen st = seen st0 -> feeds [row] st0 (add_row row st).
Proof.
  intros Hr Hs. unfold feeds, add_row, accept. simpl. rewrite <- Hr, <- Hs.
  destruct (decide (row_key row ∉ seen st)); reflexivity.
Qed.

Lemma feeds_comment_step p v k st c :
  feeds [comment_row p v k c] st
    (comment_step p (attrib_get v "name" "") (attrib_get v "guid" "")
       (image_file_name IMAGE_FILE_PREFIX k) st c).
Proof.
  unfold comment_step, comment_row, created_date_of.
  destruct (find "createddate" c) as [d|].
  - unfold parse_createddate.
    destruct (parse_createddate_try (Some d)) as [e|r];
      apply feeds_add_row_after; reflexivity.
  - apply feeds_add_row_after; reflexivity.
Qed.

Lemma feeds_comment_loop p v k (cs : list Element) :
  forall st,
    feeds (map (comment_row p v k) cs) st
      (fold_left (comment_step p (attrib_get v "name" "") (attrib_get v "guid" "")
                    (image_file_name IMAGE_FILE_PREFIX k)) cs st).
Proof.
  induction cs as [|c cs IH]; intros st; [reflexivity|].
  simpl. apply (feeds_trans [_] _ _ _ _ (feeds_comment_step p v k st c)). apply IH.
Qed.

Lemma feeds_view_step p st v :
  feeds (view_rows p v (S (view_counter st))) st (view_step p st v).
Proof.
  unfold view_step, view_rows.
  destruct (find "comments" v) as [cs|].
  - rewrite <- (app_nil_l (map _ _)).
    eapply feeds_trans; [|apply feeds_comment_loop].
    reflexivity.
  - apply feeds_add_row_after; reflexivity.
Qed.

Lemma feeds_view_loop p (vs : list Element) :
  forall st,
    feeds (submitted_from (view_counter st) (map (pair p) vs)) st
      (fold_left (view_step p) vs st).
Proof.
  induction vs as [|v vs IH]; intros st; [reflexivity|].
  simpl. eapply feeds_trans; [apply feeds_view_step|].
  rewrite <- (view_step_counter p st v). apply IH.
Qed.

Lemma submitted_from_app (c : nat) (vs1 vs2 : list (list string * Element)) :
  submitted_from c (vs1 ++ vs2)
  = submitted_from c vs1 ++ submitted_from (c + length vs1) vs2.
Proof.
  revert c. induction vs1 as [|[p v] vs1 IH]; intros c; simpl.
  - rewrite Nat.add_0_r. reflexivity.
  - rewrite IH, <- app_assoc, Nat.add_succ_r. reflexivity.
Qed.

Lemma feeds_fold {A : Type} (f : State -> A -> State)
    (vs : A -> list (list string * Element)) (l : list A) :
  Forall (fun x => forall st,
              feeds (submitted_from (view_counter st) (vs x)) st (f st x) /\
              view_counter (f st x) = view_counter st + length (vs x)) l ->
  forall st,
    feeds (submitted_from (view_counter st) (flat_map vs l)) st (fold_left f l st) /\
    view_counter (fold_left f l st) = view_counter st + length (flat_map vs l).
Proof.
  induction 1 as [|x l Hx _ IH]; intros st; simpl.
  - split; [reflexivity|lia].
  - destruct (Hx st) as (Hf & Hc). destruct (IH (f st x)) as (Hf' & Hc').
    split.
    + rewrite submitted_from_app. eapply feeds_trans; [exact Hf|].
      rewrite <- Hc. exact Hf'.
    + rewrite Hc', Hc, length_app. lia.
Qed.

Lemma feeds_recurse (folder : Element) :
  forall path st,
    feeds (submitted_from (view_counter st) (views_of folder path)) st
      (recurse folder path st) /\
    view_counter (recurse folder path st)
    = view_counter st + length (views_of folder path).
Proof.
  induction folder as [t a x l cs IHcs] using Element_nested_ind.
  intros path st. split; [|rewrite recurse_counter, length_views_of; reflexivity].
  rewrite recurse_unfold, views_of_unfold.
  set (folder := mkElement t a x l cs). set (np := new_path_of folder path).
  set (st1 := log (folder_line np) st).
  set (st2 := fold_left (view_step np) (findall "view" folder) st1).
  assert (Hc2 : view_counter st2 = view_counter st + length (findall "view" folder)).
  { subst st2.
    destruct (walk_effect_fold (view_step np) (fun v => [(np, v)])
                (findall "view" folder)
                ltac:(apply List.Forall_forall; intros v _ st'; apply walk_effect_view_step)
                st1) as (Hc & _).
    rewrite Hc, flat_map_singleton, length_map. reflexivity. }
  rewrite submitted_from_app.
  eapply feeds_trans.
  - apply (feeds_trans [] _ st st1 st2 (feeds_log _ _)).
    subst st2. apply (feeds_view_loop np (findall "view" folder) st1).
  - rewrite length_map, <- Hc2.
    apply (feeds_fold (fun st child => recurse child np st)
             (fun child => views_of child np)).
    apply Forall_findall. simpl.
    eapply List.Forall_impl; [|exact IHcs]. simpl. intros c Hc st'. apply Hc.
Qed.

(** X12. First occurrence wins, over the whole document: the accepted rows
    and the keys seen are what one gets by taking the rows the walk submits
    (for each discovered view in order, one row per comment of its
    [comments] element, or its single row without comment columns when it
    has no such element) and keeping each row whose key was not met before. *)
Theorem X12_accepted_rows_are_first_occurrences (root : Element) :
  (fst (process_xml root), seen (walk root))
  = fold_left
      (fun acc row =>
         if decide ((col_guid row, col_comment_id row) ∉ snd acc)
         then (fst acc ++ [row], {[(col_guid row, col_comment_id row)]} ∪ snd acc)
         else acc)
      (submitted_from 0 (discovered_views root)) ([], ∅).
Proof.
  assert (H : feeds (submitted_from (view_counter initial_state) (discovered_views root))
                initial_state (walk root)).
  { unfold walk, discovered_views.
    apply (feeds_fold (fun st vf => recurse vf [] st) (fun vf => views_of vf [])).
    apply List.Forall_forall. intros vf _ st. apply feeds_recurse. }
  exact H.
Qed.
